(** * NBA data collector: a shallow embedding of [nba_data_collector.py]

    The program fetches a roster of players, runs three per-player fetch
    loops (career statistics, headline statistics, scraped salaries),
    joins the four tables and writes the result.  This development embeds

    - the string operations the scraper applies to names and table cells,
    - the part of the table library the program uses (emptiness test,
      scalar column assignment, concatenation, left join),
    - the part of the HTML tree interface the scraper uses,
    - the effects of the program (printing, sleeping, creating HTTP
      sessions, sending requests, writing the file) as a trace in a
      state-and-exception monad,

    and proves properties of the program's functions over that embedding.
    Line numbers refer to [NBA/code/nba_data_collector.py]. *)

From Stdlib Require Import List String Ascii ZArith Lia Bool Arith PeanoNat.
From Stdlib Require Import Numbers.DecimalString.
Import ListNotations.

Local Open Scope list_scope.
Local Open Scope string_scope.

(* ------------------------------------------------------------------ *)
(** * Python string operations *)
(* ------------------------------------------------------------------ *)

Module PyStr.

(** Text is modelled as ASCII text ([string]); the case mapping of
    characters outside ASCII is not part of the model. *)

Definition take (n : nat) (s : string) : string := substring 0 n s.

(** [s.startswith(p)] *)
Definition startswith (p s : string) : bool := prefix p s.

(** [s.endswith(suf)] *)
Fixpoint endswith (suf s : string) : bool :=
  String.eqb s suf ||
  match s with
  | EmptyString => false
  | String _ t => endswith suf t
  end.

(** [s.replace(old, new)] scans left to right and replaces the
    non-overlapping occurrences of [old].  [skip] counts the characters
    of a matched occurrence that remain to be passed over. *)
Fixpoint replace_from (old new : string) (skip : nat) (s : string) : string :=
  match s with
  | EmptyString => EmptyString
  | String c t =>
      match skip with
      | S k => replace_from old new k t
      | O =>
          if startswith old s
          then new ++ replace_from old new (String.length old - 1) t
          else String c (replace_from old new 0 t)
      end
  end.

Fixpoint intersperse (new s : string) : string :=
  match s with
  | EmptyString => new
  | String c t => new ++ String c (intersperse new t)
  end.

Definition replace (old new s : string) : string :=
  match old with
  | EmptyString => intersperse new s
  | String _ _ => replace_from old new 0 s
  end.

Definition lower_char (c : ascii) : ascii :=
  let n := nat_of_ascii c in
  if (65 <=? n)%nat && (n <=? 90)%nat then ascii_of_nat (n + 32) else c.

(** [s.lower()] *)
Fixpoint lower (s : string) : string :=
  match s with
  | EmptyString => EmptyString
  | String c t => String (lower_char c) (lower t)
  end.

(** The characters [str.strip()] removes: tab, line feed, vertical tab,
    form feed, carriage return, the four separators 28-31 and space. *)
Definition is_space (c : ascii) : bool :=
  let n := nat_of_ascii c in
  ((9 <=? n)%nat && (n <=? 13)%nat) || ((28 <=? n)%nat && (n <=? 32)%nat).

Fixpoint lstrip (s : string) : string :=
  match s with
  | EmptyString => EmptyString
  | String c t => if is_space c then lstrip t else s
  end.

Fixpoint rstrip (s : string) : string :=
  match s with
  | EmptyString => EmptyString
  | String c t =>
      match rstrip t with
      | EmptyString => if is_space c then EmptyString else String c EmptyString
      | r => String c r
      end
  end.

(** [s.strip()] *)
Definition strip (s : string) : string := rstrip (lstrip s).

(** [s.split(' ')[0]]: the text before the first space (all of [s] when
    it has no space); the list [s.split(' ')] is never empty. *)
Fixpoint split_space_head (s : string) : string :=
  match s with
  | EmptyString => EmptyString
  | String c t =>
      if Ascii.eqb c " "%char then EmptyString
      else String c (split_space_head t)
  end.

(** [s.removesuffix(suf)]: used only to state what "stripping a suffix"
    means; the program itself never calls it. *)
Definition removesuffix (suf s : string) : string :=
  if endswith suf s then take (String.length s - String.length suf) s else s.

(** [old] occurs in [s] at a position that is not the very end of [s]. *)
Fixpoint occurs_before_end (old s : string) : bool :=
  match s with
  | EmptyString => false
  | String _ t =>
      (startswith old s && negb (String.length s =? String.length old)%nat)
      || occurs_before_end old t
  end.

End PyStr.

(* ------------------------------------------------------------------ *)
(** * Constants and the salary-page address *)
(* ------------------------------------------------------------------ *)

Definition HOOPSHYPE_SALARIES_URL : string := "https://hoopshype.com/salaries/players/".

(** [HOOPSHYPE_PLAYER_URL.format(x)] for the template
    ['https://hoopshype.com/player/{}/salary/']. *)
Definition HOOPSHYPE_PLAYER_URL_format (x : string) : string :=
  "https://hoopshype.com/player/" ++ x ++ "/salary/".

(** The argument of [format] on line 113:
    [player_name.replace(' Jr.', '').lower().replace(' ', '-')]. *)
Definition player_slug (player_name : string) : string :=
  PyStr.replace " " "-" (PyStr.lower (PyStr.replace " Jr." "" player_name)).

Definition player_url (player_name : string) : string :=
  HOOPSHYPE_PLAYER_URL_format (player_slug player_name).

(** The derivation as the specification words it: strip the suffix
    [" Jr."] if present, lowercase, replace spaces with hyphens. *)
Definition slug_by_suffix (full_name : string) : string :=
  PyStr.replace " " "-" (PyStr.lower (PyStr.removesuffix " Jr." full_name)).


(* ------------------------------------------------------------------ *)
(** * Exceptions and results *)
(* ------------------------------------------------------------------ *)

Local Open Scope list_scope.

(** The exceptions the program can meet.  [Failure] stands for whatever an
    external collaborator (the stats API, the HTTP transport) raises; all
    of them derive from [Exception], which is what the loops catch. *)
Inductive exn : Type :=
| KeyError (key : string)
| ValueError (msg : string)
| AttributeError (msg : string)
| IndexError (msg : string)
| MergeError (msg : string)
| Failure (msg : string).

(** [str(e)]; a [KeyError] prints the [repr] of its key. *)
Definition exn_str (e : exn) : string :=
  match e with
  | KeyError key => ("'" ++ key ++ "'")%string
  | ValueError msg | AttributeError msg | IndexError msg
  | MergeError msg | Failure msg => msg
  end.

Inductive result (A : Type) : Type :=
| Ok (a : A)
| Raise (e : exn).

Arguments Ok {A} a.
Arguments Raise {A} e.

Definition is_ok {A : Type} (r : result A) : bool :=
  match r with Ok _ => true | Raise _ => false end.

(* ------------------------------------------------------------------ *)
(** * Tables *)
(* ------------------------------------------------------------------ *)

(** A table cell holds an integer, a text, or the null marker (NaN/None),
    which is [None] here. *)
Inductive value : Type :=
| VInt (z : Z)
| VStr (s : string).

Definition cell : Type := option value.

Definition value_eqb (a b : value) : bool :=
  match a, b with
  | VInt x, VInt y => Z.eqb x y
  | VStr x, VStr y => String.eqb x y
  | _, _ => false
  end.

(** Equality of join keys.  The join engine matches a null key with a
    null key. *)
Definition cell_eqb (a b : cell) : bool :=
  match a, b with
  | Some x, Some y => value_eqb x y
  | None, None => true
  | _, _ => false
  end.

(** How a cell prints inside an f-string. *)
Definition cell_str (c : cell) : string :=
  match c with
  | Some (VStr s) => s
  | Some (VInt z) => NilZero.string_of_int (Z.to_int z)
  | None => "nan"
  end.

(** A table: its column labels, and its rows, each row a list of cells in
    the order of the labels.  Column labels of a table are taken to be
    pairwise distinct, as they are in the tables of the stats API and in
    the tables built from scraped records; a label is looked up at its
    first position. *)
Record DataFrame : Type := {
  columns : list string;
  rows : list (list cell)
}.

(** [pd.DataFrame()] and [pd.DataFrame([])]: no columns, no rows. *)
Definition empty_frame : DataFrame := {| columns := []; rows := [] |}.

(** [df.empty]: some axis has length zero. *)
Definition empty (df : DataFrame) : bool :=
  match columns df, rows df with
  | [], _ => true
  | _, [] => true
  | _, _ => false
  end.

Definition mem (c : string) (l : list string) : bool := existsb (String.eqb c) l.

Fixpoint index_of (c : string) (cols : list string) : option nat :=
  match cols with
  | [] => None
  | c' :: t =>
      if String.eqb c c' then Some O
      else match index_of c t with Some i => Some (S i) | None => None end
  end.

(** The cell of row [r] under label [c]; null when there is none. *)
Definition row_get (cols : list string) (r : list cell) (c : string) : cell :=
  match index_of c cols with
  | Some i => nth i r None
  | None => None
  end.

(** [player[c]] on a row produced by [iterrows]. *)
Definition getitem (cols : list string) (r : list cell) (c : string) : result cell :=
  if mem c cols then Ok (row_get cols r c) else Raise (KeyError c).

(** [df[c] = v] with a scalar [v]: the column [c] is overwritten where it
    is, or added as the last column. *)
Definition set_column (c : string) (v : cell) (df : DataFrame) : DataFrame :=
  let cols := columns df in
  let cols' := if mem c cols then cols else cols ++ [c] in
  {| columns := cols';
     rows := map (fun r => map (fun c' => if String.eqb c' c then v else row_get cols r c') cols')
                 (rows df) |}.

(** The union of the column labels of several tables, in order of first
    appearance. *)
Fixpoint union_labels (acc : list string) (ls : list string) : list string :=
  match ls with
  | [] => acc
  | c :: t => union_labels (if mem c acc then acc else acc ++ [c]) t
  end.

Definition all_labels (frames : list DataFrame) : list string :=
  fold_left (fun acc f => union_labels acc (columns f)) frames [].

(** A row of a table with labels [cols], laid out under the labels [cols'];
    a label the table does not have gives a null. *)
Definition reindex (cols cols' : list string) (r : list cell) : list cell :=
  map (row_get cols r) cols'.

(** [pd.concat(frames, ignore_index=True)]: the rows of the tables one
    after the other under the union of their labels.  An empty list of
    tables is refused. *)
Definition concat (frames : list DataFrame) : result DataFrame :=
  match frames with
  | [] => Raise (ValueError "No objects to concatenate")
  | _ =>
      let cols := all_labels frames in
      Ok {| columns := cols;
            rows := flat_map (fun f => map (reindex (columns f) cols) (rows f)) frames |}
  end.

(* ------------------------------------------------------------------ *)
(** * The left join *)
(* ------------------------------------------------------------------ *)

(** [left.merge(right, left_on=lk, right_on=rk, how='left')] with the
    default suffixes.  The join first settles the column labels of the
    result, which can fail, and then builds the rows, which cannot.
    Keys are compared as cell values; the coercion of key column types is
    not part of the model.  The left table is taken to have rows: when it
    has none the library may keep the key column of the other side, which
    changes the order of the labels only. *)

Definition label_count (c : string) (cols : list string) : nat :=
  List.length (filter (String.eqb c) cols).

(** The look-up of a key column by its label. *)
Definition key_lookup (key : string) (cols : list string) : result unit :=
  match label_count key cols with
  | O => Raise (KeyError key)
  | S O => Ok tt
  | S (S _) => Raise (ValueError ("The column label '" ++ key ++ "' is not unique."))
  end.

Definition drop_at {A : Type} (i : nat) (l : list A) : list A :=
  firstn i l ++ skipn (S i) l.

(** When both keys have the same label the key column of the right table
    is dropped: the result shows that column once. *)
Definition right_kept {A : Type} (lk rk : string) (rcols : list string) (l : list A) : list A :=
  if String.eqb lk rk
  then match index_of rk rcols with Some i => drop_at i l | None => l end
  else l.

(** A label that both tables have gets the suffix of its side. *)
Definition suffixed (overlap : list string) (suffix : string) (c : string) : string :=
  if mem c overlap then (c ++ suffix)%string else c.

(** The labels that are repeated after the renaming without having been
    repeated before it. *)
Fixpoint new_duplicates (seen_old seen_new old new : list string) : list string :=
  match old, new with
  | o :: old', n :: new' =>
      (if mem n seen_new && negb (mem o seen_old) then [n] else [])
        ++ new_duplicates (o :: seen_old) (n :: seen_new) old' new'
  | _, _ => []
  end.

Definition merge_labels (lcols rcols : list string) (lk rk : string)
  : result (list string) :=
  match key_lookup rk rcols with
  | Raise e => Raise e
  | Ok _ =>
      match key_lookup lk lcols with
      | Raise e => Raise e
      | Ok _ =>
          let rcols' := right_kept lk rk rcols rcols in
          let overlap := filter (fun c => mem c rcols') lcols in
          let llabels := map (suffixed overlap "_x") lcols in
          let rlabels := map (suffixed overlap "_y") rcols' in
          match new_duplicates [] [] lcols llabels
                  ++ new_duplicates [] [] rcols' rlabels with
          | [] => Ok (llabels ++ rlabels)
          | _ :: _ =>
              Raise (MergeError "Passing 'suffixes' which cause duplicate columns is not allowed.")
          end
      end
  end.

(** The rows a left row [l] gives: one per right row with an equal key, in
    the order of the right table, or [l] filled up with nulls when no right
    row has its key. *)
Definition join_row (lcols rcols : list string) (lk rk : string)
  (rrows : list (list cell)) (l : list cell) : list (list cell) :=
  let k := row_get lcols l lk in
  match filter (fun r => cell_eqb k (row_get rcols r rk)) rrows with
  | [] => [l ++ repeat None (List.length (right_kept lk rk rcols rcols))]
  | ms => map (fun r => l ++ right_kept lk rk rcols r) ms
  end.

Definition merge_rows (left right : DataFrame) (lk rk : string) : list (list cell) :=
  flat_map (join_row (columns left) (columns right) lk rk (rows right)) (rows left).

Definition merge (left right : DataFrame) (left_on right_on : string)
  : result DataFrame :=
  match merge_labels (columns left) (columns right) left_on right_on with
  | Raise e => Raise e
  | Ok cols => Ok {| columns := cols; rows := merge_rows left right left_on right_on |}
  end.

(** Lines 163-166. *)
Definition merge_data (players_df stats_df awards_df salaries_df : DataFrame)
  : result DataFrame :=
  match merge players_df stats_df "id" "player_id" with
  | Raise e => Raise e
  | Ok merged_df =>
      match merge merged_df awards_df "player_id" "player_id" with
      | Raise e => Raise e
      | Ok merged_df => merge merged_df salaries_df "full_name" "full_name"
      end
  end.

(** The labels of the table [merge_data] returns, as the three joins
    settle them from the labels of the four tables. *)
Definition merge_data_labels (players stats awards salaries : list string)
  : result (list string) :=
  match merge_labels players stats "id" "player_id" with
  | Raise e => Raise e
  | Ok c1 =>
      match merge_labels c1 awards "player_id" "player_id" with
      | Raise e => Raise e
      | Ok c2 => merge_labels c2 salaries "full_name" "full_name"
      end
  end.

(** No label of [a] is a label of [b]. *)
Definition disjoint (a b : list string) : Prop :=
  forall c, In c a -> ~ In c b.

(** The labels a right table adds to a join on a key both tables call
    [key]. *)
Definition without (key : string) (cols : list string) : list string :=
  right_kept key key cols cols.


(** The nulls that stand for the columns of the right table in the row
    of a left row without a match. *)
Definition nulls (lk rk : string) (right : DataFrame) : list cell :=
  repeat None (List.length (right_kept lk rk (columns right) (columns right))).


(* ------------------------------------------------------------------ *)
(** * The parsed salary page *)
(* ------------------------------------------------------------------ *)

(** The tree the HTML parser builds: text nodes and tags.  Of the
    attributes of a tag only the list of its classes is kept. *)
#[warnings="-register-all"]
Inductive node : Type :=
| Text (s : string)
| Tag (name : string) (classes : list string) (children : list node).

(** A node followed by everything below it, in document order. *)
Fixpoint preorder (n : node) : list node :=
  match n with
  | Text _ => [n]
  | Tag _ _ children => n :: flat_map preorder children
  end.

Definition descendants (n : node) : list node :=
  match n with
  | Text _ => []
  | Tag _ _ children => flat_map preorder children
  end.

(** Everything in a document (the list of its top-level nodes), in
    document order. *)
Definition soup_elements (soup : list node) : list node := flat_map preorder soup.

Definition is_tag (name : string) (n : node) : bool :=
  match n with
  | Tag nm _ _ => String.eqb nm name
  | Text _ => false
  end.

Definition has_class (c : string) (n : node) : bool :=
  match n with
  | Tag _ classes _ => mem c classes
  | Text _ => false
  end.

(** [tag.string]: the text of a tag whose only content is a text, or a
    single tag that has one. *)
Fixpoint tag_string (n : node) : option string :=
  match n with
  | Text s => Some s
  | Tag _ _ [c] => tag_string c
  | Tag _ _ _ => None
  end.

(** [tag.text]: all the text below the tag, joined. *)
Fixpoint get_text (n : node) : string :=
  match n with
  | Text s => s
  | Tag _ _ children => String.concat "" (map get_text children)
  end.

(** What [find('span', string='Past Salaries')] accepts. *)
Definition is_past_salaries_label (n : node) : bool :=
  is_tag "span" n &&
  match tag_string n with
  | Some s => String.eqb s "Past Salaries"
  | None => false
  end.

(** The elements that follow, in document order, the first element that
    satisfies [p]; [None] when no element does. *)
Fixpoint after_first (p : node -> bool) (l : list node) : option (list node) :=
  match l with
  | [] => None
  | x :: t => if p x then Some t else after_first p t
  end.

(** [soup.find('span', string='Past Salaries')], represented by the
    elements after the label, which is all the program uses it for. *)
Definition find_label (soup : list node) : option (list node) :=
  after_first is_past_salaries_label (soup_elements soup).

(** [label.find_next('table')] *)
Definition find_next_table (following : list node) : option node :=
  find (is_tag "table") following.

(** One record of [all_salaries]. *)
Record SalaryRecord : Type := {
  season : string;
  salary : string
}.

(** Lines 122-124, for one row of the table body. *)
Definition salary_record (row : node) : result SalaryRecord :=
  match find (fun n => is_tag "td" n && has_class "table-key" n) (descendants row) with
  | None => Raise (AttributeError "'NoneType' object has no attribute 'text'")
  | Some key =>
      let year := PyStr.strip (get_text key) in
      match nth_error (filter (is_tag "td") (descendants row)) 2 with
      | None => Raise (IndexError "list index out of range")
      | Some third =>
          let salary :=
            PyStr.replace "," ""
              (PyStr.replace "$" ""
                 (PyStr.split_space_head (PyStr.strip (get_text third)))) in
          Ok {| season := year; salary := salary |}
      end
  end.

(** [pd.DataFrame(all_salaries)] for a list of records with the keys
    ['season'] and ['salary']. *)
Definition frame_of_records (all_salaries : list SalaryRecord) : DataFrame :=
  match all_salaries with
  | [] => empty_frame
  | _ :: _ =>
      {| columns := ["season"; "salary"]%string;
         rows := map (fun r => [Some (VStr (season r)); Some (VStr (salary r))])
                     all_salaries |}
  end.

(* ------------------------------------------------------------------ *)
(** * Effects *)
(* ------------------------------------------------------------------ *)

(** What the program does to the outside, in the order it does it. *)
Inductive event : Type :=
| EPrint (line : string)                    (* print(line) *)
| ESleep (seconds : Z)                      (* time.sleep(seconds) *)
| ESession (sid : nat)                      (* requests.Session() *)
| EGet (sid : nat) (url : string)           (* session.get(url) *)
| EToCsv (filename : string) (df : DataFrame).  (* df.to_csv(filename, index=False) *)

Definition trace : Type := list event.

(** A computation runs from the trace so far, may raise, and leaves the
    trace extended by what it did, also when it raises. *)
Definition M (A : Type) : Type := trace -> result A * trace.

Definition ret {A : Type} (a : A) : M A := fun t => (Ok a, t).

Definition bind {A B : Type} (m : M A) (k : A -> M B) : M B :=
  fun t =>
    match m t with
    | (Ok a, t') => k a t'
    | (Raise e, t') => (Raise e, t')
    end.

Definition lift {A : Type} (r : result A) : M A := fun t => (r, t).

Definition emit (e : event) : M unit := fun t => (Ok tt, t ++ [e]).

(** [try: body / except Exception as e: handler(e)] *)
Definition try_except {A : Type} (body : M A) (handler : exn -> M A) : M A :=
  fun t =>
    match body t with
    | (Ok a, t') => (Ok a, t')
    | (Raise e, t') => handler e t'
    end.

Declare Scope py_scope.
Delimit Scope py_scope with py.
Notation "x <- m ;; k" := (bind m (fun x => k))
  (at level 61, m at next level, right associativity) : py_scope.
Notation "m ;; k" := (bind m (fun _ => k))
  (at level 61, right associativity) : py_scope.
Local Open Scope py_scope.

(** A [for] loop that carries the list it appends to. *)
Fixpoint for_each {A B : Type} (l : list A) (acc : B) (body : A -> B -> M B) : M B :=
  match l with
  | [] => ret acc
  | x :: t => acc' <- body x acc ;; for_each t acc' body
  end.

Definition print (line : string) : M unit := emit (EPrint line).

Definition sleep (seconds : Z) : M unit := emit (ESleep seconds).

(** The sessions created so far, which numbers the next one. *)
Definition sessions_created (t : trace) : list nat :=
  flat_map (fun e => match e with ESession s => [s] | _ => [] end) t.

Definition requests_made (t : trace) : list (nat * string) :=
  flat_map (fun e => match e with EGet s url => [(s, url)] | _ => [] end) t.

Definition sleeps (t : trace) : list Z :=
  flat_map (fun e => match e with ESleep s => [s] | _ => [] end) t.

(* ------------------------------------------------------------------ *)
(** * The transport layer *)
(* ------------------------------------------------------------------ *)

Record Retry : Type := {
  total : Z;
  backoff_factor : Z;
  status_forcelist : list Z
}.

Record Session : Type := {
  sid : nat;
  adapters : list (string * Retry)
}.

(** [requests.Session()]: a new session, numbered by the count of the
    sessions created before it. *)
Definition requests_Session : M Session :=
  fun t =>
    let s := List.length (sessions_created t) in
    (Ok {| sid := s; adapters := [] |}, t ++ [ESession s]).

Definition mount (session : Session) (prefix : string) (retries : Retry) : Session :=
  {| sid := sid session; adapters := (prefix, retries) :: adapters session |}.

(** Lines 21-24. *)
Definition create_session_with_retries : M Session :=
  session <- requests_Session ;;
  let retries := {| total := 5; backoff_factor := 1; status_forcelist := [502; 503; 504]%Z |} in
  ret (mount session "https://" retries).

(* ------------------------------------------------------------------ *)
(** * The program *)
(* ------------------------------------------------------------------ *)

Section Program.

(** The external collaborators.  Each answers with a value or raises. *)

(** [pd.DataFrame(players.get_active_players())] *)
Variable active_players : result DataFrame.

(** [playercareerstats.PlayerCareerStats(player_id=...).get_data_frames()[0]] *)
Variable career_stats : cell -> result DataFrame.

(** [commonplayerinfo.CommonPlayerInfo(player_id=...).player_headline_stats.get_data_frame()] *)
Variable headline_stats : cell -> result DataFrame.

(** The document the HTML parser builds from the text of the response to
    a GET of an address; the transport raises when its retries are
    used up or the connection fails. *)
Variable page_at : string -> result (list node).

(** Lines 33-34. *)
Definition fetch_active_players : M DataFrame := lift active_players.

(** Lines 45-46. *)
Definition fetch_player_stats (player_id : cell) : M DataFrame :=
  lift (career_stats player_id).

(** Lines 78-80. *)
Definition fetch_player_awards (player_id : cell) : M DataFrame :=
  lift (headline_stats player_id).

(** [session.get(url)] followed by the parse of the response text. *)
Definition session_get (session : Session) (url : string) : M (list node) :=
  emit (EGet (sid session) url) ;; lift (page_at url).

(** The text methods of line 113 exist on a text only.  The message of
    the error, which names the type of the value, is shortened. *)
Definition as_text (c : cell) : result string :=
  match c with
  | Some (VStr s) => Ok s
  | _ => Raise (AttributeError "object has no attribute 'replace'")
  end.

(** Lines 112-128. *)
Definition fetch_player_salaries (player_name : cell) : M DataFrame :=
  session <- create_session_with_retries ;;
  name <- lift (as_text player_name) ;;
  let url := player_url name in
  soup <- session_get session url ;;
  following <- lift (match find_label soup with
                     | Some following => Ok following
                     | None => Raise (AttributeError
                                 "'NoneType' object has no attribute 'find_next'")
                     end) ;;
  let past_table := find_next_table following in
  all_salaries <-
    match past_table with
    | Some table =>
        match find (is_tag "tbody") (descendants table) with
        | None => lift (Raise (AttributeError
                          "'NoneType' object has no attribute 'find_all'"))
        | Some tbody =>
            for_each (filter (is_tag "tr") (descendants tbody)) []
              (fun row all_salaries =>
                 record <- lift (salary_record row) ;;
                 ret (all_salaries ++ [record]))
        end
    | None =>
        print ("Past salaries table not found for player " ++ name) ;;
        ret []
    end ;;
  ret (frame_of_records all_salaries).

(** The body of the three fetch loops (lines 59-66, 93-100, 141-148),
    which differ in the fetch they call, the column they read the
    argument from, the column they tag the rows with, and one word of
    the message. *)
Definition fetch_one (what key_label tag_label : string)
  (fetch : cell -> M DataFrame) (cols : list string)
  (player : list cell) (all : list DataFrame) : M (list DataFrame) :=
  try_except
    (key <- lift (getitem cols player key_label) ;;
     df <- fetch key ;;
     all' <- (if negb (empty df)
              then tag <- lift (getitem cols player key_label) ;;
                   ret (all ++ [set_column tag_label tag df])
              else ret all) ;;
     sleep 1 ;;
     ret all')
    (fun e =>
       name <- lift (getitem cols player "full_name") ;;
       print ("Failed to fetch " ++ what ++ " for player "
                ++ cell_str name ++ ": " ++ exn_str e) ;;
       ret all).

(** The three loops with their last line: the concatenation of what was
    collected, or an empty table when nothing was. *)
Definition fetch_all (what key_label tag_label : string)
  (fetch : cell -> M DataFrame) (players_df : DataFrame) : M DataFrame :=
  all <- for_each (rows players_df) []
           (fetch_one what key_label tag_label fetch (columns players_df)) ;;
  match all with
  | [] => ret empty_frame
  | _ :: _ => lift (concat all)
  end.

(** Lines 57-67. *)
Definition fetch_all_player_stats : DataFrame -> M DataFrame :=
  fetch_all "stats" "id" "player_id" fetch_player_stats.

(** Lines 91-101. *)
Definition fetch_all_player_awards : DataFrame -> M DataFrame :=
  fetch_all "awards" "id" "player_id" fetch_player_awards.

(** Lines 139-149. *)
Definition fetch_all_player_salaries : DataFrame -> M DataFrame :=
  fetch_all "salaries" "full_name" "full_name" fetch_player_salaries.

(** Line 176. *)
Definition save_data (df : DataFrame) (filename : string) : M unit :=
  emit (EToCsv filename df).

(** Lines 183-201. *)
Definition main : M unit :=
  print "Fetching active players..." ;;
  players_df <- fetch_active_players ;;
  print "Fetching player stats..." ;;
  stats_df <- fetch_all_player_stats players_df ;;
  print "Fetching player awards..." ;;
  awards_df <- fetch_all_player_awards players_df ;;
  print "Scraping player salaries..." ;;
  salaries_df <- fetch_all_player_salaries players_df ;;
  print "Merging data..." ;;
  merged_df <- lift (merge_data players_df stats_df awards_df salaries_df) ;;
  print "Saving data to CSV..." ;;
  save_data merged_df "nba_active_players_dataset.csv" ;;
  print "Data collection complete.".

End Program.

(* ------------------------------------------------------------------ *)
(** * What a run of a fetch loop amounts to *)
(* ------------------------------------------------------------------ *)

(** The definitions of this part are not in the program: they describe,
    as plain functions, the value and the trace of a run, and the facts
    below prove that the program's functions compute them. *)

(** The records of the rows of a table body, or the first exception a
    row raises. *)
Fixpoint records (table_rows : list node) (acc : list SalaryRecord)
  : result (list SalaryRecord) :=
  match table_rows with
  | [] => Ok acc
  | row :: t =>
      match salary_record row with
      | Ok r => records t (acc ++ [r])
      | Raise e => Raise e
      end
  end.

(** What is scraped from a parsed page. *)
Definition scrape (soup : list node) : result DataFrame :=
  match find_label soup with
  | None => Raise (AttributeError "'NoneType' object has no attribute 'find_next'")
  | Some following =>
      match find_next_table following with
      | None => Ok (frame_of_records [])
      | Some table =>
          match find (is_tag "tbody") (descendants table) with
          | None => Raise (AttributeError "'NoneType' object has no attribute 'find_all'")
          | Some tbody =>
              match records (filter (is_tag "tr") (descendants tbody)) [] with
              | Ok all_salaries => Ok (frame_of_records all_salaries)
              | Raise e => Raise e
              end
          end
      end
  end.

(** The label is there and no table follows it. *)
Definition table_not_found (soup : list node) : bool :=
  match find_label soup with
  | Some following =>
      match find_next_table following with
      | None => true
      | Some _ => false
      end
  | None => false
  end.

Section Runs.

Variable page_at : string -> result (list node).

(** The value of [fetch_player_salaries]. *)
Definition salaries_outcome (player_name : cell) : result DataFrame :=
  match as_text player_name with
  | Raise e => Raise e
  | Ok name =>
      match page_at (player_url name) with
      | Raise e => Raise e
      | Ok soup => scrape soup
      end
  end.

(** What [fetch_player_salaries] does when [n] sessions exist already. *)
Definition salaries_events (player_name : cell) (n : nat) : list event :=
  ESession n ::
  match as_text player_name with
  | Raise _ => []
  | Ok name =>
      EGet n (player_url name) ::
      match page_at (player_url name) with
      | Raise _ => []
      | Ok soup =>
          if table_not_found soup
          then [EPrint ("Past salaries table not found for player " ++ name)]
          else []
      end
  end.

Variables what key_label tag_label : string.
Variable outcome : cell -> result DataFrame.
Variable fetch_events : cell -> nat -> list event.
Variable cols : list string.

(** The tables a player adds to the list the loop collects. *)
Definition contribution (player : list cell) : list DataFrame :=
  match outcome (row_get cols player key_label) with
  | Ok df =>
      if empty df then []
      else [set_column tag_label (row_get cols player key_label) df]
  | Raise _ => []
  end.

Definition failure_line (player : list cell) (e : exn) : string :=
  "Failed to fetch " ++ what ++ " for player "
    ++ cell_str (row_get cols player "full_name") ++ ": " ++ exn_str e.

(** What one turn of the loop does when [n] sessions exist already. *)
Definition step_events (player : list cell) (n : nat) : list event :=
  fetch_events (row_get cols player key_label) n ++
  match outcome (row_get cols player key_label) with
  | Ok _ => [ESleep 1]
  | Raise e => [EPrint (failure_line player e)]
  end.

Fixpoint loop_events (players : list (list cell)) (n : nat) : list event :=
  match players with
  | [] => []
  | player :: t =>
      step_events player n
        ++ loop_events t (n + List.length (sessions_created (step_events player n)))
  end.

(** The table the loop returns for the list it collected. *)
Definition collected (all : list DataFrame) : DataFrame :=
  match all with
  | [] => empty_frame
  | _ :: _ =>
      {| columns := all_labels all;
         rows := flat_map (fun f => map (reindex (columns f) (all_labels all)) (rows f)) all |}
  end.

End Runs.

(** The result is a table, and each of its rows carries under the label
    [tag] the cell some row of the roster has under the label [key]. *)
Definition refers_to_roster (table : result DataFrame) (tag : string)
  (players_df : DataFrame) (key : string) : Prop :=
  exists df,
    table = Ok df /\
    forall row, In row (rows df) ->
      In tag (columns df) /\
      exists player,
        In player (rows players_df) /\
        row_get (columns df) row tag = row_get (columns players_df) player key.

(** A run of a loop over [players_df] from the trace [t] prints [line]
    and returns a table, the very table the loop returns for the roster
    [others_df]. *)
Definition logged_and_skipped (loop : DataFrame -> M DataFrame)
  (players_df others_df : DataFrame) (line : string) (t : trace) : Prop :=
  In (EPrint line) (snd (loop players_df t)) /\
  exists table,
    fst (loop players_df t) = Ok table /\
    fst (loop others_df t) = Ok table.

(** A run of a loop sleeps one second for every player of the roster. *)
Definition sleeps_after_every_attempt (loop : DataFrame -> M DataFrame)
  (players_df : DataFrame) (t : trace) : Prop :=
  sleeps (snd (loop players_df t))
    = sleeps t ++ repeat 1%Z (List.length (rows players_df)).

(** At most one session is created on the trace, and every request of
    the trace goes through the same session. *)
Definition single_client (t : trace) : Prop :=
  List.length (sessions_created t) <= 1 /\
  forall r1 r2, In r1 (requests_made t) -> In r2 (requests_made t) -> fst r1 = fst r2.

(** No player of the roster adds a table to what the loop collects: the
    fetch for the cell under [key] raises or returns an empty table. *)
Definition yields_no_rows (fetch : cell -> M DataFrame) (players_df : DataFrame)
  (key : string) : Prop :=
  forall player, In player (rows players_df) ->
    match fst (fetch (row_get (columns players_df) player key) []) with
    | Ok df => empty df = true
    | Raise _ => True
    end.

(** The events of a fetch that does nothing to the outside. *)
Definition silent (k : cell) (n : nat) : list event := [].

(** Whether a computation returns, rather than raises, when it is run.
    For the three fetches this does not depend on the trace it is run
    from. *)
Definition returns {A : Type} (m : M A) : bool := is_ok (fst (m [])).

(** The request the scraper sends for a player name through session
    [s]; none when the name is not a text. *)
Definition salary_request (s : nat) (player_name : cell) : list (nat * string) :=
  match as_text player_name with
  | Ok name => [(s, player_url name)]
  | Raise _ => []
  end.

(* ------------------------------------------------------------------ *)
(** * A small world to run the program in *)
(* ------------------------------------------------------------------ *)

Module Scenario.

Local Open Scope string_scope.

(** The roster of two players. *)
Definition player_ab : list cell := [Some (VInt 1); Some (VStr "A B")].
Definition player_cd : list cell := [Some (VInt 2); Some (VStr "C D")].

Definition roster : DataFrame :=
  {| columns := ["id"; "full_name"]; rows := [player_ab; player_cd] |}.

Definition only_ab : DataFrame :=
  {| columns := ["id"; "full_name"]; rows := [player_ab] |}.

Definition stats_labels : list string := ["PLAYER_ID"; "SEASON_ID"; "PTS"].
Definition awards_labels : list string := ["PLAYER_ID"; "PLAYER_NAME"; "PTS"].

(** The stats source has one season for player 1 and none for anyone
    else. *)
Definition career_stats (player_id : cell) : result DataFrame :=
  match player_id with
  | Some (VInt 1) =>
      Ok {| columns := stats_labels;
            rows := [[Some (VInt 1); Some (VStr "2021-22"); Some (VInt 900)]] |}
  | _ => Ok {| columns := stats_labels; rows := [] |}
  end.

(** The awards source has a row for nobody. *)
Definition headline_stats (player_id : cell) : result DataFrame :=
  Ok {| columns := awards_labels; rows := [] |}.

(** A source that has the columns of the stats table and a row for
    nobody. *)
Definition nothing (player_id : cell) : result DataFrame :=
  Ok {| columns := stats_labels; rows := [] |}.

(** An awards source that has a row for everybody. *)
Definition headline_stats_full (player_id : cell) : result DataFrame :=
  Ok {| columns := awards_labels;
        rows := [[player_id; Some (VStr "somebody"); Some (VInt 20)]] |}.

(** A stats API that is down for player 2. *)
Definition career_stats_down (player_id : cell) : result DataFrame :=
  match player_id with
  | Some (VInt 2) => Raise (Failure "Read timed out.")
  | _ => career_stats player_id
  end.

Definition headline_stats_down (player_id : cell) : result DataFrame :=
  match player_id with
  | Some (VInt 2) => Raise (Failure "Read timed out.")
  | _ => headline_stats_full player_id
  end.

(** The row of the salary table the specification gives. *)
Definition row_2021 : node :=
  Tag "tr" []
    [Tag "td" ["table-key"] [Text "2021-22"];
     Tag "td" [] [];
     Tag "td" [] [Text "$1,234,567 (total)"]].

(** A salary page with the label and the table. *)
Definition page_with_table : list node :=
  [Tag "html" []
     [Tag "body" []
        [Tag "span" [] [Text "Past Salaries"];
         Tag "table" [] [Tag "tbody" [] [row_2021]]]]].

(** A salary page with the label and no table after it. *)
Definition page_without_table : list node :=
  [Tag "html" [] [Tag "body" [] [Tag "span" [] [Text "Past Salaries"]]]].

(** A page without the label, as the site serves for a player it does
    not know. *)
Definition page_without_label : list node :=
  [Tag "html" [] [Tag "body" [] [Tag "h1" [] [Text "Page not found"]]]].

(** The salary site knows C D, has an empty section for A B, and serves
    the page without the label for every other address. *)
Definition page_at (url : string) : result (list node) :=
  if String.eqb url "https://hoopshype.com/player/c-d/salary/" then Ok page_with_table
  else if String.eqb url "https://hoopshype.com/player/a-b/salary/" then Ok page_without_table
  else Ok page_without_label.

(** A salary site that has no section at all. *)
Definition page_at_nothing (url : string) : result (list node) :=
  Ok page_without_table.

(** A salary site that knows only A B. *)
Definition page_at_only_ab (url : string) : result (list node) :=
  if String.eqb url "https://hoopshype.com/player/a-b/salary/" then Ok page_with_table
  else Ok page_without_label.

(** Tables with their join columns, as the loops return them when some
    player has rows. *)
Definition stats_table : DataFrame :=
  {| columns := stats_labels ++ ["player_id"];
     rows := [[Some (VInt 1); Some (VStr "2021-22"); Some (VInt 900); Some (VInt 1)]] |}.

Definition awards_table : DataFrame :=
  {| columns := awards_labels ++ ["player_id"];
     rows := [[Some (VInt 1); Some (VStr "somebody"); Some (VInt 20); Some (VInt 1)]] |}.

Definition salaries_table : DataFrame :=
  {| columns := ["season"; "salary"; "full_name"];
     rows := [[Some (VStr "2021-22"); Some (VStr "1234567"); Some (VStr "C D")]] |}.


(** An awards table with its columns and no row. *)
Definition awards_no_rows : DataFrame :=
  {| columns := awards_labels ++ ["player_id"]; rows := [] |}.

End Scenario.

(* ------------------------------------------------------------------ *)
(** * Notions for the properties of strings, rows and runs *)
(* ------------------------------------------------------------------ *)

(** Every character of [s] satisfies [p]. *)
Fixpoint all_chars (p : ascii -> bool) (s : string) : bool :=
  match s with
  | EmptyString => true
  | String c t => p c && all_chars p t
  end.

(** The character [c] does not occur in [s]. *)
Definition no_char (c : ascii) (s : string) : bool :=
  all_chars (fun x => negb (Ascii.eqb x c)) s.

(** An upper-case letter of ASCII. *)
Definition is_upper (c : ascii) : bool :=
  let n := nat_of_ascii c in (65 <=? n)%nat && (n <=? 90)%nat.

Definition starts_with_space (s : string) : bool :=
  match s with
  | EmptyString => false
  | String c _ => PyStr.is_space c
  end.

Fixpoint ends_with_space (s : string) : bool :=
  match s with
  | EmptyString => false
  | String c EmptyString => PyStr.is_space c
  | String _ t => ends_with_space t
  end.

(** The cells of the table row made from a record. *)
Definition record_cells (r : SalaryRecord) : list cell :=
  [Some (VStr (season r)); Some (VStr (salary r))].

(** Every row of the table has one cell per column label. *)
Definition aligned (df : DataFrame) : Prop :=
  forall r, In r (rows df) -> List.length r = List.length (columns df).


(** The files written, with the tables written to them. *)
Definition csv_writes (t : trace) : list (string * DataFrame) :=
  flat_map (fun e => match e with EToCsv f df => [(f, df)] | _ => [] end) t.

(** The lines printed. *)
Definition printed_lines (t : trace) : list string :=
  flat_map (fun e => match e with EPrint s => [s] | _ => [] end) t.

(** The number of rows a fetch hands to its loop: the rows of the table
    it returns, none when that table is empty or the fetch raises. *)
Definition rows_fetched (fetch : cell -> M DataFrame) (k : cell) : nat :=
  match fst (fetch k []) with
  | Ok df => if empty df then 0 else List.length (rows df)
  | Raise _ => 0
  end.

(** A sleep of one second or a printed line. *)
Definition sleep_or_print (ev : event) : Prop :=
  ev = ESleep 1 \/ exists line, ev = EPrint line.

(** The result is a table that has, for every row of the fetched table
    [df], a row with the cell [k] under the label [tag] and the cells of
    that row under the other labels of [df]. *)
Definition hands_over (table : result DataFrame) (tag : string) (k : cell)
  (df : DataFrame) : Prop :=
  exists result_df,
    table = Ok result_df /\
    forall r, In r (rows df) ->
      exists row,
        In row (rows result_df) /\
        row_get (columns result_df) row tag = k /\
        forall c, In c (columns df) -> c <> tag ->
          row_get (columns result_df) row c = row_get (columns df) r c.

(** The trace of [main] when it gets to [merge_data]: the messages of the
    five phases before it, with what the three loops do in between. *)
Definition trace_before_merge
  (career_stats headline_stats : cell -> result DataFrame)
  (page_at : string -> result (list node))
  (players_df : DataFrame) (t : trace) : trace :=
  let t1 := (t ++ [EPrint "Fetching active players..."])
              ++ [EPrint "Fetching player stats..."] in
  let t2 := snd (fetch_all_player_stats career_stats players_df t1)
              ++ [EPrint "Fetching player awards..."] in
  let t3 := snd (fetch_all_player_awards headline_stats players_df t2)
              ++ [EPrint "Scraping player salaries..."] in
  snd (fetch_all_player_salaries page_at players_df t3)
    ++ [EPrint "Merging data..."].

(** The sleeps of a loop: one second for each player whose fetch
    returns. *)
Definition loop_sleeps (fetch : cell -> M DataFrame) (players_df : DataFrame)
  (key : string) : list Z :=
  flat_map (fun player =>
              if returns (fetch (row_get (columns players_df) player key))
              then [1%Z] else [])
           (rows players_df).

(** The rows of the tables the fetches return for the players of the
    roster, in roster order, each followed by the key of its player;
    nothing for a fetch that raises or returns an empty table. *)
Definition tagged_rows (fetch : cell -> M DataFrame) (players_df : DataFrame)
  (key : string) : list (list cell) :=
  flat_map (fun player =>
              let k := row_get (columns players_df) player key in
              match fst (fetch k []) with
              | Ok df => if empty df then [] else map (fun r => r ++ [k]) (rows df)
              | Raise _ => []
              end)
           (rows players_df).

(** Every table that a fetch returns for a player of the roster, and that
    is not empty, has the column labels [labels] and rows of that many
    cells. *)
Definition uniform (fetch : cell -> M DataFrame) (players_df : DataFrame)
  (key : string) (labels : list string) : Prop :=
  forall player df,
    In player (rows players_df) ->
    fst (fetch (row_get (columns players_df) player key) []) = Ok df ->
    empty df = false ->
    columns df = labels /\ aligned df.

(** The table a loop returns for the rows [tagged] under the labels
    [labels] and the tag label. *)
Definition table_of_tagged (labels : list string) (tag : string)
  (tagged : list (list cell)) : DataFrame :=
  match tagged with
  | [] => empty_frame
  | _ :: _ => {| columns := labels ++ [tag]; rows := tagged |}
  end.

(* ------------------------------------------------------------------ *)
(** * More pages, rosters and tables to run the program on *)
(* ------------------------------------------------------------------ *)

Module Cases.

Local Open Scope string_scope.

(** A row with a key cell and one more cell only. *)
Definition row_short : node :=
  Tag "tr" [] [Tag "td" ["table-key"] [Text "2020-21"]; Tag "td" [] [Text "$5"]].

(** A row without a key cell. *)
Definition row_without_key : node :=
  Tag "tr" [] [Tag "td" [] [Text "2019-20"]; Tag "td" [] []; Tag "td" [] [Text "$7"]].

(** A second good row. *)
Definition row_2022 : node :=
  Tag "tr" []
    [Tag "td" ["table-key"] [Text " 2022-23 "];
     Tag "td" [] [Text "$2,000,000"];
     Tag "td" [] [Text "$2,345,678"]].

Definition page_of_table (table : node) : list node :=
  [Tag "html" [] [Tag "body" [] [Tag "span" [] [Text "Past Salaries"]; table]]].

(** The body of the table has a good row and then a short one. *)
Definition table_with_short_row : node :=
  Tag "table" [] [Tag "tbody" [] [Scenario.row_2021; row_short; row_2022]].

(** The rows of the table are not inside a body. *)
Definition table_without_body : node :=
  Tag "table" [] [Scenario.row_2021].

Definition table_of_two_rows : node :=
  Tag "table" [] [Tag "tbody" [] [Scenario.row_2021; row_2022]].

Definition site_short_row (url : string) : result (list node) :=
  Ok (page_of_table table_with_short_row).

Definition site_without_body (url : string) : result (list node) :=
  Ok (page_of_table table_without_body).

Definition site_two_rows (url : string) : result (list node) :=
  Ok (page_of_table table_of_two_rows).

(** A roster without the column [id]. *)
Definition roster_without_id : DataFrame :=
  {| columns := ["full_name"];
     rows := [[Some (VStr "A B")]; [Some (VStr "C D")]] |}.

(** A roster without the column [full_name]. *)
Definition roster_without_name : DataFrame :=
  {| columns := ["id"];
     rows := [[Some (VInt 1)]; [Some (VInt 2)]] |}.


(** Tables with their columns and no row. *)
Definition stats_no_rows : DataFrame :=
  {| columns := Scenario.stats_labels ++ ["player_id"]; rows := [] |}.

Definition salaries_no_rows : DataFrame :=
  {| columns := ["season"; "salary"; "full_name"]; rows := [] |}.

(** A roster that has a column [player_id] of its own. *)
Definition roster_with_player_id : DataFrame :=
  {| columns := ["id"; "full_name"; "player_id"];
     rows := [[Some (VInt 1); Some (VStr "A B"); Some (VInt 1)]] |}.

(** An awards table with one row for each of the two players. *)
Definition awards_two_players : DataFrame :=
  {| columns := Scenario.awards_labels ++ ["player_id"];
     rows := [[Some (VInt 1); Some (VStr "A B"); Some (VInt 20); Some (VInt 1)];
              [Some (VInt 2); Some (VStr "C D"); Some (VInt 10); Some (VInt 2)]] |}.

(** A stats source that has a season for every player. *)
Definition career_stats_all (player_id : cell) : result DataFrame :=
  Ok {| columns := Scenario.stats_labels;
        rows := [[player_id; Some (VStr "2021-22"); Some (VInt 900)]] |}.

(** A salary site that has the table of one row for every player. *)
Definition site_all (url : string) : result (list node) :=
  Ok Scenario.page_with_table.

End Cases.

(* ------------------------------------------------------------------ *)
(** * Facts about the string operations *)
(* ------------------------------------------------------------------ *)

Module PyStrFacts.
Import PyStr.

Local Open Scope string_scope.

Lemma append_empty_r (s : string) : s ++ "" = s.
Proof. induction s as [|c t IH]; simpl; [reflexivity | now rewrite IH]. Qed.

Lemma replace_from_skip_all (old new : string) :
  forall s k, (String.length s <= k)%nat -> replace_from old new k s = "".
Proof.
  induction s as [|c t IH]; intros k Hk; simpl in *; [reflexivity|].
  destruct k as [|k]; [lia|]. apply IH. lia.
Qed.

Lemma prefix_length (p : string) :
  forall s, prefix p s = true -> (String.length p <= String.length s)%nat.
Proof.
  induction p as [|a p IH]; intros s H; [simpl; lia|].
  destruct s as [|b s]; simpl in H; [discriminate H|].
  destruct (ascii_dec a b); [|discriminate H].
  apply IH in H. simpl. lia.
Qed.

Lemma prefix_same_length (p : string) :
  forall s, prefix p s = true -> String.length s = String.length p -> s = p.
Proof.
  induction p as [|a p IH]; intros s H L.
  - destruct s; [reflexivity | discriminate L].
  - destruct s as [|b s]; simpl in H; [discriminate H|].
    destruct (ascii_dec a b) as [->|]; [|discriminate H].
    f_equal. apply IH; [assumption | simpl in L; lia].
Qed.

Lemma endswith_length (suf : string) :
  forall s, endswith suf s = true -> (String.length suf <= String.length s)%nat.
Proof.
  induction s as [|c t IH]; cbn [endswith]; intros H.
  - rewrite orb_false_r in H. apply String.eqb_eq in H. subst. simpl. lia.
  - apply orb_true_iff in H as [H|H].
    + apply String.eqb_eq in H. subst. simpl. lia.
    + apply IH in H. simpl. lia.
Qed.

Lemma take_cons (n : nat) (c : ascii) (t : string) :
  take (S n) (String c t) = String c (take n t).
Proof. reflexivity. Qed.

Lemma take_all (s : string) : take (String.length s) s = s.
Proof. induction s as [|c t IH]; [reflexivity|]. simpl. rewrite take_cons. now f_equal. Qed.

Lemma take_zero (s : string) : take 0 s = "".
Proof. destruct s; reflexivity. Qed.

(** When [old] occurs in [s] nowhere except possibly as its suffix,
    replacing [old] amounts to taking that suffix off. *)
Lemma replace_from_only_trailing (old new : string) :
  old <> "" ->
  forall s,
    occurs_before_end old s = false ->
    replace_from old new 0 s =
      if endswith old s
      then take (String.length s - String.length old) s ++ new
      else s.
Proof.
  intros Hold.
  induction s as [|c t IH]; intros H.
  - cbn [endswith replace_from]. rewrite orb_false_r.
    destruct (String.eqb "" old) eqn:E; [|reflexivity].
    apply String.eqb_eq in E. congruence.
  - cbn [occurs_before_end] in H. apply orb_false_iff in H as [H1 H2].
    specialize (IH H2).
    cbn [replace_from]. destruct (startswith old (String c t)) eqn:P.
    + (* the whole of [s] is the occurrence *)
      cbn [andb] in H1.
      apply negb_false_iff in H1. apply Nat.eqb_eq in H1.
      assert (E : String c t = old)
        by (apply prefix_same_length; [exact P | exact H1]).
      rewrite replace_from_skip_all
        by (change (String.length (String c t)) with (S (String.length t)) in H1; lia).
      cbn [endswith].
      replace (String.eqb (String c t) old) with true
        by (symmetry; apply String.eqb_eq; exact E).
      cbn [orb]. rewrite H1, Nat.sub_diag, take_zero, append_empty_r. reflexivity.
    + clear H1. rewrite IH. cbn [endswith].
      assert (N : String.eqb (String c t) old = false).
      { apply String.eqb_neq. intros E. rewrite E in P.
        unfold startswith in P. rewrite (proj2 (prefix_correct old old)) in P.
        - discriminate P.
        - apply (take_all old). }
      rewrite N. cbn [orb].
      destruct (endswith old t) eqn:E; [|reflexivity].
      apply endswith_length in E.
      change (String.length (String c t)) with (S (String.length t)).
      replace (S (String.length t) - String.length old)%nat
        with (S (String.length t - String.length old)) by lia.
      rewrite take_cons. reflexivity.
Qed.

End PyStrFacts.

(* ------------------------------------------------------------------ *)
(** * Facts about tables *)
(* ------------------------------------------------------------------ *)

Lemma mem_In (c : string) (l : list string) : mem c l = true <-> In c l.
Proof.
  unfold mem. rewrite existsb_exists. split.
  - intros [x [Hx E]]. apply String.eqb_eq in E. now subst.
  - intros H. exists c. split; [assumption | apply String.eqb_refl].
Qed.

Lemma mem_false (c : string) (l : list string) : mem c l = false <-> ~ In c l.
Proof.
  rewrite <- mem_In. destruct (mem c l); split; congruence.
Qed.

Lemma index_of_In (c : string) (cols : list string) :
  In c cols ->
  exists i, index_of c cols = Some i /\ i < List.length cols /\ nth i cols ""%string = c.
Proof.
  induction cols as [|c' t IH]; intros H; [destruct H|].
  cbn [index_of]. destruct (String.eqb c c') eqn:E.
  - apply String.eqb_eq in E. subst. exists 0. cbn. repeat split. lia.
  - destruct H as [H|H]; [subst; rewrite String.eqb_refl in E; discriminate E|].
    destruct (IH H) as [i [Hi [Hl Hn]]]. rewrite Hi.
    exists (S i). cbn. repeat split; [lia | assumption].
Qed.

(** A row built label by label holds under each label what was put there. *)
Lemma row_get_map (f : string -> cell) (cols : list string) (c : string) :
  In c cols -> row_get cols (map f cols) c = f c.
Proof.
  intros H. unfold row_get.
  destruct (index_of_In c cols H) as [i [Hi [Hl Hn]]]. rewrite Hi.
  rewrite (nth_indep (map f cols) None (f ""%string)) by (rewrite length_map; exact Hl).
  rewrite map_nth. now rewrite Hn.
Qed.

Lemma set_column_has (c : string) (v : cell) (df : DataFrame) :
  In c (columns (set_column c v df)).
Proof.
  unfold set_column. cbn [columns].
  destruct (mem c (columns df)) eqn:E.
  - now apply mem_In.
  - apply in_or_app. right. now left.
Qed.

Lemma set_column_get (c : string) (v : cell) (df : DataFrame) (r : list cell) :
  In r (rows (set_column c v df)) ->
  row_get (columns (set_column c v df)) r c = v.
Proof.
  intros H. pose proof (set_column_has c v df) as Hc.
  unfold set_column in *. cbn [rows columns] in *.
  apply in_map_iff in H as [r0 [<- _]].
  rewrite row_get_map by exact Hc. now rewrite String.eqb_refl.
Qed.

Lemma union_labels_acc (ls acc : list string) (c : string) :
  In c acc -> In c (union_labels acc ls).
Proof.
  revert acc. induction ls as [|x t IH]; intros acc H; cbn [union_labels]; [assumption|].
  apply IH. destruct (mem x acc); [assumption | apply in_or_app; now left].
Qed.

Lemma union_labels_new (ls acc : list string) (c : string) :
  In c ls -> In c (union_labels acc ls).
Proof.
  revert acc. induction ls as [|x t IH]; intros acc H; [destruct H|].
  cbn [union_labels]. destruct H as [->|H]; [|now apply IH].
  apply union_labels_acc. destruct (mem c acc) eqn:E.
  - now apply mem_In.
  - apply in_or_app. right. now left.
Qed.

Lemma fold_union_acc (frames : list DataFrame) (acc : list string) (c : string) :
  In c acc ->
  In c (fold_left (fun acc f => union_labels acc (columns f)) frames acc).
Proof.
  revert acc. induction frames as [|f t IH]; intros acc H; cbn [fold_left]; [assumption|].
  apply IH. now apply union_labels_acc.
Qed.

Lemma fold_union_new (frames : list DataFrame) (acc : list string)
  (f : DataFrame) (c : string) :
  In f frames -> In c (columns f) ->
  In c (fold_left (fun acc f => union_labels acc (columns f)) frames acc).
Proof.
  revert acc. induction frames as [|g t IH]; intros acc Hf Hc; [destruct Hf|].
  cbn [fold_left]. destruct Hf as [->|Hf].
  - apply fold_union_acc. now apply union_labels_new.
  - now apply IH.
Qed.

Lemma all_labels_In (frames : list DataFrame) (f : DataFrame) (c : string) :
  In f frames -> In c (columns f) -> In c (all_labels frames).
Proof. apply fold_union_new. Qed.

(** Every row of the collected table is a row of one of the tables, with
    the same cell under each label of that table. *)
Lemma collected_row (all : list DataFrame) (row : list cell) :
  In row (rows (collected all)) ->
  exists f r,
    In f all /\ In r (rows f) /\
    forall c, In c (columns f) ->
      In c (columns (collected all)) /\
      row_get (columns (collected all)) row c = row_get (columns f) r c.
Proof.
  destruct all as [|f0 t]; [intros []|].
  set (all := f0 :: t). cbn [collected rows columns]. fold all.
  intros H. apply in_flat_map in H as [f [Hf H]].
  apply in_map_iff in H as [r [<- Hr]].
  exists f, r. repeat split; try assumption.
  - now apply (all_labels_In all f).
  - unfold reindex. apply row_get_map. now apply (all_labels_In all f).
Qed.

(* ------------------------------------------------------------------ *)
(** * Facts about the left join *)
(* ------------------------------------------------------------------ *)

Section JoinFacts.

Variables left right : DataFrame.
Variables lk rk : string.









(** The join succeeds exactly when its labels are settled. *)
Lemma merge_ok (labels : list string) :
  merge_labels (columns left) (columns right) lk rk = Ok labels ->
  merge left right lk rk =
    Ok {| columns := labels; rows := merge_rows left right lk rk |}.
Proof. intros H. unfold merge. now rewrite H. Qed.

Lemma merge_raises (e : exn) :
  merge_labels (columns left) (columns right) lk rk = Raise e ->
  merge left right lk rk = Raise e.
Proof. intros H. unfold merge. now rewrite H. Qed.

End JoinFacts.

(** Against a right table that has its columns and no row the join is a
    match of nothing: every left row once, filled up with nulls. *)
Lemma merge_rows_no_right_rows (left right : DataFrame) (lk rk : string) :
  rows right = [] ->
  merge_rows left right lk rk = map (fun l => l ++ nulls lk rk right) (rows left).
Proof.
  intros H. unfold merge_rows, join_row, nulls. rewrite H. cbn [filter].
  induction (rows left) as [|l t IH]; [reflexivity|].
  cbn [flat_map map app]. now rewrite IH.
Qed.

(** A key that is not among the labels of the right table is a
    [KeyError], whatever the left table is. *)
Lemma merge_labels_missing_right (lcols rcols : list string) (lk rk : string) :
  ~ In rk rcols -> merge_labels lcols rcols lk rk = Raise (KeyError rk).
Proof.
  intros H. unfold merge_labels, key_lookup, label_count.
  replace (filter (String.eqb rk) rcols) with (@nil string); [reflexivity|].
  symmetry. induction rcols as [|c t IH]; [reflexivity|].
  cbn [filter]. destruct (String.eqb rk c) eqn:E.
  - apply String.eqb_eq in E. subst. exfalso. apply H. now left.
  - apply IH. intros Hin. apply H. now right.
Qed.

(* ------------------------------------------------------------------ *)
(** * Labels that do not overlap *)
(* ------------------------------------------------------------------ *)

Lemma label_count_app (c : string) (a b : list string) :
  label_count c (a ++ b) = label_count c a + label_count c b.
Proof. unfold label_count. now rewrite filter_app, length_app. Qed.

Lemma label_count_absent (c : string) (l : list string) :
  ~ In c l -> label_count c l = 0.
Proof.
  intros H. unfold label_count.
  induction l as [|x t IH]; [reflexivity|].
  cbn [filter]. destruct (String.eqb c x) eqn:E.
  - apply String.eqb_eq in E. subst. exfalso. apply H. now left.
  - apply IH. intros Hin. apply H. now right.
Qed.

Lemma label_count_present (c : string) (l : list string) :
  label_count c l = 1 -> In c l.
Proof.
  intros H. destruct (in_dec string_dec c l) as [Hin|Hout]; [assumption|].
  rewrite (label_count_absent c l Hout) in H. discriminate H.
Qed.

Lemma no_overlap (a b : list string) :
  disjoint a b -> filter (fun c => mem c b) a = [].
Proof.
  intros H. induction a as [|x t IH]; [reflexivity|].
  cbn [filter]. replace (mem x b) with false.
  - apply IH. intros c Hc. apply H. now right.
  - symmetry. apply mem_false. apply H. now left.
Qed.

Lemma suffixed_nothing (suffix : string) (l : list string) :
  map (suffixed [] suffix) l = l.
Proof. induction l as [|x t IH]; [reflexivity|]. cbn. now rewrite IH. Qed.

Lemma new_duplicates_same (l : list string) :
  forall seen, new_duplicates seen seen l l = [].
Proof.
  induction l as [|x t IH]; intros seen; [reflexivity|].
  cbn [new_duplicates]. rewrite IH. now destruct (mem x seen).
Qed.

(** A join of tables whose labels do not overlap renames nothing. *)
Lemma merge_labels_disjoint (lcols rcols : list string) (lk rk : string) :
  label_count lk lcols = 1 ->
  label_count rk rcols = 1 ->
  disjoint lcols (right_kept lk rk rcols rcols) ->
  merge_labels lcols rcols lk rk = Ok (lcols ++ right_kept lk rk rcols rcols).
Proof.
  intros Hl Hr Hd. unfold merge_labels, key_lookup. rewrite Hl, Hr.
  rewrite (no_overlap _ _ Hd), !suffixed_nothing, !new_duplicates_same.
  reflexivity.
Qed.

(** When the four tables share no label but the join keys, and each key
    is there once, the three joins settle their labels: those of the
    roster, of the stats table, and of the other two tables without
    their key. *)
Lemma merge_data_labels_disjoint (players stats awards salaries : list string) :
  label_count "id" players = 1 ->
  label_count "full_name" players = 1 ->
  label_count "player_id" stats = 1 ->
  label_count "player_id" awards = 1 ->
  label_count "full_name" salaries = 1 ->
  disjoint players stats ->
  disjoint (players ++ stats) (without "player_id" awards) ->
  disjoint (players ++ stats ++ without "player_id" awards)
           (without "full_name" salaries) ->
  merge_data_labels players stats awards salaries
    = Ok (players ++ stats ++ without "player_id" awards
            ++ without "full_name" salaries).
Proof.
  intros Kid Kname Kstats Kawards Ksalaries D1 D2 D3.
  pose proof (label_count_present _ _ Kname) as Hname.
  pose proof (label_count_present _ _ Kstats) as Hpid.
  unfold merge_data_labels.
  rewrite (merge_labels_disjoint players stats "id" "player_id" Kid Kstats D1).
  change (right_kept "id" "player_id" stats stats) with stats.
  rewrite (merge_labels_disjoint (players ++ stats) awards "player_id" "player_id").
  - fold (without "player_id" awards).
    rewrite (merge_labels_disjoint ((players ++ stats) ++ without "player_id" awards)
               salaries "full_name" "full_name").
    + fold (without "full_name" salaries). now rewrite <- !app_assoc.
    + rewrite !label_count_app, Kname.
      rewrite (label_count_absent "full_name" stats) by now apply D1.
      rewrite (label_count_absent "full_name" (without "player_id" awards)).
      * reflexivity.
      * apply D2. apply in_or_app. now left.
    + exact Ksalaries.
    + rewrite <- app_assoc. exact D3.
  - rewrite label_count_app, Kstats.
    rewrite (label_count_absent "player_id" players); [reflexivity|].
    intros Hin. exact (D1 _ Hin Hpid).
  - exact Kawards.
  - exact D2.
Qed.

(* ------------------------------------------------------------------ *)
(** * Facts about traces *)
(* ------------------------------------------------------------------ *)

Lemma sessions_created_app (a b : trace) :
  sessions_created (a ++ b) = sessions_created a ++ sessions_created b.
Proof. apply flat_map_app. Qed.

Lemma requests_made_app (a b : trace) :
  requests_made (a ++ b) = requests_made a ++ requests_made b.
Proof. apply flat_map_app. Qed.

Lemma sleeps_app (a b : trace) : sleeps (a ++ b) = sleeps a ++ sleeps b.
Proof. apply flat_map_app. Qed.

Lemma getitem_ok (cols : list string) (r : list cell) (c : string) :
  In c cols -> getitem cols r c = Ok (row_get cols r c).
Proof. intros H. unfold getitem. apply mem_In in H. now rewrite H. Qed.

(* ------------------------------------------------------------------ *)
(** * A run of the salary scraper *)
(* ------------------------------------------------------------------ *)

Section ScraperFacts.

Variable page_at : string -> result (list node).

(** The loop over the rows of the table body does nothing to the
    outside. *)
Lemma for_each_records (table_rows : list node) :
  forall (acc : list SalaryRecord) (t : trace),
    for_each table_rows acc
      (fun row all_salaries =>
         bind (lift (salary_record row)) (fun record => ret (all_salaries ++ [record]))) t
    = (records table_rows acc, t).
Proof.
  induction table_rows as [|row rest IH]; intros acc t; [reflexivity|].
  cbn [for_each records]. unfold bind at 1. unfold bind at 1. unfold lift at 1.
  destruct (salary_record row) as [r|e]; [|reflexivity].
  unfold ret at 1. apply IH.
Qed.

(** The value of the scraper does not depend on what happened before,
    and what it does depends only on the number of sessions that exist. *)
Lemma fetch_player_salaries_run (player_name : cell) (t : trace) :
  fetch_player_salaries page_at player_name t =
    (salaries_outcome page_at player_name,
     t ++ salaries_events page_at player_name (List.length (sessions_created t))).
Proof.
  unfold fetch_player_salaries, salaries_outcome, salaries_events,
    create_session_with_retries, requests_Session, session_get.
  unfold bind at 1. unfold bind at 1. unfold ret at 1.
  unfold bind at 1. unfold lift at 1.
  destruct (as_text player_name) as [name|e]; [|reflexivity].
  unfold bind at 1. unfold bind at 1. unfold emit at 1. unfold lift at 1.
  cbn [sid mount].
  set (n := List.length (sessions_created t)).
  destruct (page_at (player_url name)) as [soup|e];
    [|now rewrite <- app_assoc].
  unfold bind at 1. unfold lift at 1. unfold scrape, table_not_found.
  destruct (find_label soup) as [following|]; [|now rewrite <- app_assoc].
  unfold bind at 1.
  destruct (find_next_table following) as [table|].
  - destruct (find (is_tag "tbody") (descendants table)) as [tbody|].
    + rewrite for_each_records.
      destruct (records _ []) as [all|e]; unfold ret; now rewrite <- app_assoc.
    + unfold lift. now rewrite <- app_assoc.
  - unfold bind, print, emit, ret.
    now rewrite <- !app_assoc.
Qed.

End ScraperFacts.

(* ------------------------------------------------------------------ *)
(** * A run of a fetch loop *)
(* ------------------------------------------------------------------ *)

Section LoopFacts.

Variables what key_label tag_label : string.
Variable fetch : cell -> M DataFrame.
Variable outcome : cell -> result DataFrame.
Variable fetch_events : cell -> nat -> list event.
Variable cols : list string.

(** The fetch has a value that does not depend on the trace, and extends
    the trace. *)
Hypothesis fetch_run :
  forall k t,
    fetch k t = (outcome k, t ++ fetch_events k (List.length (sessions_created t))).

(** The roster has the column the loop reads and the column the handler
    prints. *)
Hypothesis has_key : In key_label cols.
Hypothesis has_name : In "full_name"%string cols.

Let key (player : list cell) : cell := row_get cols player key_label.
Let gives := contribution key_label tag_label outcome cols.
Let step := step_events what key_label outcome fetch_events cols.
Let events := loop_events what key_label outcome fetch_events cols.
Let body := fetch_one what key_label tag_label fetch cols.

Lemma fetch_one_run (player : list cell) (all : list DataFrame) (t : trace) :
  body player all t =
    (Ok (all ++ gives player), t ++ step player (List.length (sessions_created t))).
Proof.
  unfold body, fetch_one, try_except, gives, contribution, step, step_events.
  unfold bind at 1. unfold lift at 1.
  rewrite (getitem_ok cols player key_label has_key).
  unfold bind at 1. rewrite fetch_run.
  destruct (outcome (row_get cols player key_label)) as [df|e].
  - unfold bind at 1. destruct (empty df); cbn [negb].
    + unfold ret at 1. unfold bind, sleep, emit, ret.
      now rewrite app_nil_r, <- app_assoc.
    + unfold bind, lift, sleep, emit, ret.
      now rewrite <- app_assoc.
  - unfold bind at 1. unfold lift at 1.
    rewrite (getitem_ok cols player "full_name" has_name).
    unfold bind, print, emit, ret, failure_line.
    now rewrite app_nil_r, <- app_assoc.
Qed.

Lemma for_each_run (players : list (list cell)) :
  forall (all : list DataFrame) (t : trace),
    for_each players all body t =
      (Ok (all ++ flat_map gives players),
       t ++ events players (List.length (sessions_created t))).
Proof.
  induction players as [|player rest IH]; intros all t.
  - cbn. now rewrite !app_nil_r.
  - cbn [for_each]. unfold bind. rewrite fetch_one_run. rewrite IH.
    cbn [flat_map]. unfold events. cbn [loop_events]. fold events. fold step.
    rewrite sessions_created_app, length_app, <- !app_assoc. reflexivity.
Qed.

(** The loop never raises; it returns the table of what the players
    gave and leaves the events of its turns on the trace. *)
Lemma fetch_all_run (players : list (list cell)) (t : trace) :
  fetch_all what key_label tag_label fetch {| columns := cols; rows := players |} t =
    (Ok (collected (flat_map gives players)),
     t ++ events players (List.length (sessions_created t))).
Proof.
  unfold fetch_all. cbn [rows columns]. unfold bind. fold body.
  rewrite for_each_run. cbn [app].
  destruct (flat_map gives players) as [|f fs]; reflexivity.
Qed.

(** A player whose fetch raises gives nothing. *)
Lemma gives_nothing_when_raises (player : list cell) (e : exn) :
  outcome (key player) = Raise e -> gives player = [].
Proof. intros H. unfold gives, contribution. fold (key player). now rewrite H. Qed.

Lemma gives_without (before after : list (list cell)) (player : list cell) (e : exn) :
  outcome (key player) = Raise e ->
  flat_map gives (before ++ player :: after) = flat_map gives (before ++ after).
Proof.
  intros H. rewrite !flat_map_app. cbn [flat_map].
  now rewrite (gives_nothing_when_raises player e H).
Qed.

(** The failure of a player is printed, with the player's name. *)
Lemma events_print_failure (players : list (list cell)) (player : list cell) (e : exn) :
  In player players ->
  outcome (key player) = Raise e ->
  forall n,
    In (EPrint (failure_line what cols player e)) (events players n).
Proof.
  intros Hin Hraise.
  induction players as [|p rest IH]; intros n; [destruct Hin|].
  unfold events. cbn [loop_events]. fold events. apply in_or_app.
  destruct Hin as [->|Hin].
  - left. unfold step_events. apply in_or_app. right.
    fold (key player). rewrite Hraise. now left.
  - right. now apply IH.
Qed.

(** When the fetch itself never sleeps, the loop sleeps one second after
    each fetch that returns, and not after a fetch that raises. *)
Lemma events_sleeps (players : list (list cell)) :
  (forall k n, sleeps (fetch_events k n) = []) ->
  forall n,
    sleeps (events players n) =
      flat_map (fun player => if is_ok (outcome (key player)) then [1%Z] else [])
               players.
Proof.
  intros Hquiet.
  induction players as [|p rest IH]; intros n; [reflexivity|].
  unfold events. cbn [loop_events flat_map]. fold events.
  rewrite sleeps_app, IH. f_equal.
  unfold step_events. rewrite sleeps_app, Hquiet. fold (key p).
  destruct (outcome (key p)); reflexivity.
Qed.

(** When each fetch creates one session, the loop creates one session
    per player. *)
Lemma events_sessions (players : list (list cell)) :
  (forall k n, sessions_created (fetch_events k n) = [n]) ->
  forall n, sessions_created (events players n) = seq n (List.length players).
Proof.
  intros Hone.
  induction players as [|p rest IH]; intros n; [reflexivity|].
  unfold events. cbn [loop_events]. fold events.
  assert (E : sessions_created (step_events what key_label outcome fetch_events cols p n) = [n]).
  { unfold step_events. rewrite sessions_created_app, Hone.
    destruct (outcome _); reflexivity. }
  rewrite sessions_created_app, E, IH. cbn [List.length seq app].
  now rewrite Nat.add_1_r.
Qed.

(** When each fetch creates one session, the requests of the loop are the
    requests of its fetches, the fetch for the i-th player running with
    the i-th session. *)
Lemma events_requests (request : nat -> cell -> list (nat * string))
  (players : list (list cell)) :
  (forall k n, sessions_created (fetch_events k n) = [n]) ->
  (forall k n, requests_made (fetch_events k n) = request n k) ->
  forall n,
    requests_made (events players n) =
      flat_map (fun sp => request (fst sp) (key (snd sp)))
               (combine (seq n (List.length players)) players).
Proof.
  intros Hone Hreq.
  induction players as [|p rest IH]; intros n; [reflexivity|].
  unfold events. cbn [loop_events]. fold events.
  assert (E : sessions_created (step_events what key_label outcome fetch_events cols p n) = [n]).
  { unfold step_events. rewrite sessions_created_app, Hone.
    destruct (outcome _); reflexivity. }
  rewrite requests_made_app, E, IH. cbn [List.length seq combine flat_map fst snd].
  rewrite Nat.add_1_r. f_equal.
  unfold step_events. rewrite requests_made_app, Hreq. fold (key p).
  destruct (outcome (key p)); cbn; now rewrite app_nil_r.
Qed.

(** Every row of the returned table carries, under the tag label, the
    key of a player of the roster. *)
Lemma collected_rows_tagged (players : list (list cell)) (row : list cell) :
  In row (rows (collected (flat_map gives players))) ->
  In tag_label (columns (collected (flat_map gives players))) /\
  exists player,
    In player players /\
    row_get (columns (collected (flat_map gives players))) row tag_label = key player.
Proof.
  intros H. apply collected_row in H as [f [r [Hf [Hr Hc]]]].
  apply in_flat_map in Hf as [player [Hp Hf]].
  unfold gives, contribution in Hf. fold (key player) in Hf.
  destruct (outcome (key player)) as [df|e]; [|destruct Hf].
  destruct (empty df); [destruct Hf|].
  destruct Hf as [<-|[]].
  destruct (Hc tag_label (set_column_has _ _ _)) as [Hin Hget].
  split; [assumption|]. exists player. split; [assumption|].
  rewrite Hget. now apply set_column_get.
Qed.

End LoopFacts.

(* ------------------------------------------------------------------ *)
(** * The three loops *)
(* ------------------------------------------------------------------ *)

Section ThreeLoops.

Variables career_stats headline_stats : cell -> result DataFrame.
Variable page_at : string -> result (list node).

Lemma fetch_player_stats_run (k : cell) (t : trace) :
  fetch_player_stats career_stats k t =
    (career_stats k, t ++ silent k (List.length (sessions_created t))).
Proof. unfold fetch_player_stats, lift, silent. now rewrite app_nil_r. Qed.

Lemma fetch_player_awards_run (k : cell) (t : trace) :
  fetch_player_awards headline_stats k t =
    (headline_stats k, t ++ silent k (List.length (sessions_created t))).
Proof. unfold fetch_player_awards, lift, silent. now rewrite app_nil_r. Qed.

Lemma frame_eta (df : DataFrame) : df = {| columns := columns df; rows := rows df |}.
Proof. now destruct df. Qed.

Variable players_df : DataFrame.
Hypothesis has_id : In "id"%string (columns players_df).
Hypothesis has_name : In "full_name"%string (columns players_df).

Lemma fetch_all_player_stats_run (players : list (list cell)) (t : trace) :
  fetch_all_player_stats career_stats
    {| columns := columns players_df; rows := players |} t =
    (Ok (collected
           (flat_map (contribution "id" "player_id" career_stats (columns players_df))
                     players)),
     t ++ loop_events "stats" "id" career_stats silent (columns players_df) players
            (List.length (sessions_created t))).
Proof.
  apply (fetch_all_run "stats" "id" "player_id" (fetch_player_stats career_stats)
           career_stats silent (columns players_df)
           fetch_player_stats_run has_id has_name).
Qed.

Lemma fetch_all_player_awards_run (players : list (list cell)) (t : trace) :
  fetch_all_player_awards headline_stats
    {| columns := columns players_df; rows := players |} t =
    (Ok (collected
           (flat_map (contribution "id" "player_id" headline_stats (columns players_df))
                     players)),
     t ++ loop_events "awards" "id" headline_stats silent (columns players_df) players
            (List.length (sessions_created t))).
Proof.
  apply (fetch_all_run "awards" "id" "player_id" (fetch_player_awards headline_stats)
           headline_stats silent (columns players_df)
           fetch_player_awards_run has_id has_name).
Qed.

Lemma fetch_all_player_salaries_run (players : list (list cell)) (t : trace) :
  fetch_all_player_salaries page_at
    {| columns := columns players_df; rows := players |} t =
    (Ok (collected
           (flat_map (contribution "full_name" "full_name" (salaries_outcome page_at)
                        (columns players_df))
                     players)),
     t ++ loop_events "salaries" "full_name" (salaries_outcome page_at)
            (salaries_events page_at) (columns players_df) players
            (List.length (sessions_created t))).
Proof.
  apply (fetch_all_run "salaries" "full_name" "full_name"
           (fetch_player_salaries page_at)
           (salaries_outcome page_at) (salaries_events page_at) (columns players_df)
           (fetch_player_salaries_run page_at) has_name has_name).
Qed.

End ThreeLoops.

(** What the scraper does on its own: one session, at most one request,
    at most one message, and no sleep. *)
Lemma salaries_events_sessions (page_at : string -> result (list node))
  (k : cell) (n : nat) :
  sessions_created (salaries_events page_at k n) = [n].
Proof.
  unfold salaries_events. cbn [sessions_created flat_map app].
  destruct (as_text k) as [name|]; [|reflexivity].
  cbn [flat_map app]. destruct (page_at _) as [soup|]; [|reflexivity].
  destruct (table_not_found soup); reflexivity.
Qed.

Lemma salaries_events_requests (page_at : string -> result (list node))
  (k : cell) (n : nat) :
  requests_made (salaries_events page_at k n) = salary_request n k.
Proof.
  unfold salaries_events, salary_request. cbn [requests_made flat_map app].
  destruct (as_text k) as [name|]; [|reflexivity].
  cbn [flat_map app]. destruct (page_at _) as [soup|]; [|reflexivity].
  destruct (table_not_found soup); reflexivity.
Qed.

Lemma salaries_events_sleeps (page_at : string -> result (list node))
  (k : cell) (n : nat) :
  sleeps (salaries_events page_at k n) = [].
Proof.
  unfold salaries_events. cbn [sleeps flat_map app].
  destruct (as_text k) as [name|]; [|reflexivity].
  cbn [flat_map app]. destruct (page_at _) as [soup|]; [|reflexivity].
  destruct (table_not_found soup); reflexivity.
Qed.

(* ------------------------------------------------------------------ *)
(** * Referential integrity of the collected tables *)
(* ------------------------------------------------------------------ *)

(** C10.  For every roster that has the columns [id] and [full_name],
    each of the three loops returns a table, and every row of that table
    carries a tag that is the key of some player of the roster: the
    [player_id] of a stats row or an awards row is the [id] of a roster
    player, the [full_name] of a salary row is the [full_name] of a roster
    player. *)
Theorem collected_rows_refer_to_roster
  (career_stats headline_stats : cell -> result DataFrame)
  (page_at : string -> result (list node))
  (players_df : DataFrame) (t : trace) :
  In "id"%string (columns players_df) ->
  In "full_name"%string (columns players_df) ->
  refers_to_roster (fst (fetch_all_player_stats career_stats players_df t))
    "player_id" players_df "id" /\
  refers_to_roster (fst (fetch_all_player_awards headline_stats players_df t))
    "player_id" players_df "id" /\
  refers_to_roster (fst (fetch_all_player_salaries page_at players_df t))
    "full_name" players_df "full_name".
Proof.
  intros Hid Hname.
  pose proof (fetch_all_player_stats_run career_stats players_df Hid Hname
                (rows players_df) t) as Hs.
  pose proof (fetch_all_player_awards_run headline_stats players_df Hid Hname
                (rows players_df) t) as Ha.
  pose proof (fetch_all_player_salaries_run page_at players_df Hname
                (rows players_df) t) as Hp.
  rewrite <- (frame_eta players_df) in Hs, Ha, Hp.
  rewrite Hs, Ha, Hp. cbn [fst]. unfold refers_to_roster.
  repeat split.
  - eexists. split; [reflexivity|]. intros row H.
    now apply collected_rows_tagged in H.
  - eexists. split; [reflexivity|]. intros row H.
    now apply collected_rows_tagged in H.
  - eexists. split; [reflexivity|]. intros row H.
    now apply collected_rows_tagged in H.
Qed.

Lemma collected_rows_refer_to_roster_witness :
  In "id"%string (columns Scenario.roster) /\
  In "full_name"%string (columns Scenario.roster) /\
  refers_to_roster
    (fst (fetch_all_player_stats Scenario.career_stats Scenario.roster []))
    "player_id" Scenario.roster "id" /\
  refers_to_roster
    (fst (fetch_all_player_awards Scenario.headline_stats_full Scenario.roster []))
    "player_id" Scenario.roster "id" /\
  refers_to_roster
    (fst (fetch_all_player_salaries Scenario.page_at Scenario.roster []))
    "full_name" Scenario.roster "full_name".
Proof.
  assert (Hid : In "id"%string (columns Scenario.roster)) by (left; reflexivity).
  assert (Hname : In "full_name"%string (columns Scenario.roster))
    by (right; left; reflexivity).
  split; [exact Hid|]. split; [exact Hname|].
  exact (collected_rows_refer_to_roster Scenario.career_stats
           Scenario.headline_stats_full Scenario.page_at Scenario.roster []
           Hid Hname).
Defined.

(* ------------------------------------------------------------------ *)
(** * A failed fetch is logged and skipped *)
(* ------------------------------------------------------------------ *)

(** C4.  Take a roster with the columns [id] and [full_name] and one of
    its players.  In each of the three loops, when the fetch for that
    player raises [e], the loop prints the line
    "Failed to fetch ... for player <name>: <e>" with the player's name,
    goes on, and returns a table: the same table it returns for the
    roster without that player, so the player adds no row to it. *)
Theorem failed_fetch_is_logged_and_skipped
  (career_stats headline_stats : cell -> result DataFrame)
  (page_at : string -> result (list node))
  (players_df : DataFrame) (before after : list (list cell))
  (player : list cell) (t : trace) :
  In "id"%string (columns players_df) ->
  In "full_name"%string (columns players_df) ->
  rows players_df = before ++ player :: after ->
  let cols := columns players_df in
  let others_df := {| columns := cols; rows := before ++ after |} in
  let name := cell_str (row_get cols player "full_name") in
  (forall e t0,
     fst (fetch_player_stats career_stats (row_get cols player "id") t0) = Raise e ->
     logged_and_skipped (fetch_all_player_stats career_stats) players_df others_df
       ("Failed to fetch stats for player " ++ name ++ ": " ++ exn_str e) t) /\
  (forall e t0,
     fst (fetch_player_awards headline_stats (row_get cols player "id") t0) = Raise e ->
     logged_and_skipped (fetch_all_player_awards headline_stats) players_df others_df
       ("Failed to fetch awards for player " ++ name ++ ": " ++ exn_str e) t) /\
  (forall e t0,
     fst (fetch_player_salaries page_at (row_get cols player "full_name") t0) = Raise e ->
     logged_and_skipped (fetch_all_player_salaries page_at) players_df others_df
       ("Failed to fetch salaries for player " ++ name ++ ": " ++ exn_str e) t).
Proof.
  intros Hid Hname Hrows cols others_df name.
  assert (Hin : In player (before ++ player :: after)) by apply in_elt.
  rewrite (frame_eta players_df), Hrows. fold cols. subst others_df.
  repeat split.
  - rewrite !(fetch_all_player_stats_run career_stats players_df Hid Hname).
    cbn [snd]. apply in_or_app. right.
    apply (events_print_failure "stats" "id" career_stats silent cols _ player e Hin).
    exact H.
  - rewrite !(fetch_all_player_stats_run career_stats players_df Hid Hname).
    cbn [fst]. eexists. split; [reflexivity|]. f_equal. f_equal. symmetry.
    apply (gives_without "id" "player_id" career_stats cols before after player e).
    exact H.
  - rewrite !(fetch_all_player_awards_run headline_stats players_df Hid Hname).
    cbn [snd]. apply in_or_app. right.
    apply (events_print_failure "awards" "id" headline_stats silent cols _ player e Hin).
    exact H.
  - rewrite !(fetch_all_player_awards_run headline_stats players_df Hid Hname).
    cbn [fst]. eexists. split; [reflexivity|]. f_equal. f_equal. symmetry.
    apply (gives_without "id" "player_id" headline_stats cols before after player e).
    exact H.
  - rewrite fetch_player_salaries_run in H. cbn [fst] in H.
    rewrite !(fetch_all_player_salaries_run page_at players_df Hname).
    cbn [snd]. apply in_or_app. right.
    apply (events_print_failure "salaries" "full_name" (salaries_outcome page_at)
             (salaries_events page_at) cols _ player e Hin).
    exact H.
  - rewrite fetch_player_salaries_run in H. cbn [fst] in H.
    rewrite !(fetch_all_player_salaries_run page_at players_df Hname).
    cbn [fst]. eexists. split; [reflexivity|]. f_equal. f_equal. symmetry.
    apply (gives_without "full_name" "full_name" (salaries_outcome page_at) cols
             before after player e).
    exact H.
Qed.

Lemma failed_fetch_is_logged_and_skipped_witness :
  In "id"%string (columns Scenario.roster) /\
  In "full_name"%string (columns Scenario.roster) /\
  rows Scenario.roster = [Scenario.player_ab] ++ Scenario.player_cd :: [] /\
  logged_and_skipped (fetch_all_player_stats Scenario.career_stats_down)
    Scenario.roster Scenario.only_ab
    "Failed to fetch stats for player C D: Read timed out." [] /\
  logged_and_skipped (fetch_all_player_awards Scenario.headline_stats_down)
    Scenario.roster Scenario.only_ab
    "Failed to fetch awards for player C D: Read timed out." [] /\
  logged_and_skipped (fetch_all_player_salaries Scenario.page_at_only_ab)
    Scenario.roster Scenario.only_ab
    "Failed to fetch salaries for player C D: 'NoneType' object has no attribute 'find_next'"
    [].
Proof.
  assert (Hid : In "id"%string (columns Scenario.roster)) by (left; reflexivity).
  assert (Hname : In "full_name"%string (columns Scenario.roster))
    by (right; left; reflexivity).
  assert (Hrows : rows Scenario.roster = [Scenario.player_ab] ++ Scenario.player_cd :: [])
    by reflexivity.
  pose proof (failed_fetch_is_logged_and_skipped
                Scenario.career_stats_down Scenario.headline_stats_down
                Scenario.page_at_only_ab Scenario.roster
                [Scenario.player_ab] [] Scenario.player_cd [] Hid Hname Hrows)
    as [Hstats [Hawards Hsalaries]].
  split; [exact Hid|]. split; [exact Hname|]. split; [exact Hrows|].
  split; [|split].
  - exact (Hstats (Failure "Read timed out.") [] eq_refl).
  - exact (Hawards (Failure "Read timed out.") [] eq_refl).
  - exact (Hsalaries
             (AttributeError "'NoneType' object has no attribute 'find_next'")
             [] eq_refl).
Defined.

(* ------------------------------------------------------------------ *)
(** * When the loops sleep *)
(* ------------------------------------------------------------------ *)

(** C6, as stated, fails: with a stats API that is down for the second of
    two players the stats loop sleeps once, not twice. *)
Lemma no_sleep_after_a_failed_fetch :
  ~ sleeps_after_every_attempt
      (fetch_all_player_stats Scenario.career_stats_down) Scenario.roster [].
Proof. unfold sleeps_after_every_attempt. vm_compute. discriminate. Qed.

(** C6, amended.  For a roster with the columns [id] and [full_name],
    each of the three loops sleeps one second after the fetch of every
    player whose fetch returns, also when it returns an empty table, and
    does not sleep after a fetch that raises: the sleeps of a run are one
    sleep of one second per player whose fetch returns, in roster order. *)
Theorem sleep_after_each_returning_fetch
  (career_stats headline_stats : cell -> result DataFrame)
  (page_at : string -> result (list node))
  (players_df : DataFrame) (t : trace) :
  In "id"%string (columns players_df) ->
  In "full_name"%string (columns players_df) ->
  let cols := columns players_df in
  sleeps (snd (fetch_all_player_stats career_stats players_df t))
    = sleeps t ++
      flat_map (fun player =>
                  if returns (fetch_player_stats career_stats (row_get cols player "id"))
                  then [1%Z] else [])
               (rows players_df) /\
  sleeps (snd (fetch_all_player_awards headline_stats players_df t))
    = sleeps t ++
      flat_map (fun player =>
                  if returns (fetch_player_awards headline_stats (row_get cols player "id"))
                  then [1%Z] else [])
               (rows players_df) /\
  sleeps (snd (fetch_all_player_salaries page_at players_df t))
    = sleeps t ++
      flat_map (fun player =>
                  if returns (fetch_player_salaries page_at (row_get cols player "full_name"))
                  then [1%Z] else [])
               (rows players_df).
Proof.
  intros Hid Hname cols.
  pose proof (fetch_all_player_stats_run career_stats players_df Hid Hname
                (rows players_df) t) as Hs.
  pose proof (fetch_all_player_awards_run headline_stats players_df Hid Hname
                (rows players_df) t) as Ha.
  pose proof (fetch_all_player_salaries_run page_at players_df Hname
                (rows players_df) t) as Hp.
  rewrite <- (frame_eta players_df) in Hs, Ha, Hp.
  rewrite Hs, Ha, Hp. cbn [snd]. rewrite !sleeps_app. fold cols.
  split; [|split]; f_equal.
  - now rewrite events_sleeps by reflexivity.
  - now rewrite events_sleeps by reflexivity.
  - rewrite events_sleeps by apply salaries_events_sleeps.
    apply flat_map_ext. intros player. unfold returns.
    now rewrite fetch_player_salaries_run.
Qed.

Lemma sleep_after_each_returning_fetch_witness :
  In "id"%string (columns Scenario.roster) /\
  In "full_name"%string (columns Scenario.roster) /\
  sleeps (snd (fetch_all_player_stats Scenario.career_stats_down Scenario.roster []))
    = [1%Z] /\
  sleeps (snd (fetch_all_player_awards Scenario.headline_stats Scenario.roster []))
    = [1%Z; 1%Z] /\
  sleeps (snd (fetch_all_player_salaries Scenario.page_at_only_ab Scenario.roster []))
    = [1%Z].
Proof.
  assert (Hid : In "id"%string (columns Scenario.roster)) by (left; reflexivity).
  assert (Hname : In "full_name"%string (columns Scenario.roster))
    by (right; left; reflexivity).
  split; [exact Hid|]. split; [exact Hname|].
  exact (sleep_after_each_returning_fetch Scenario.career_stats_down
           Scenario.headline_stats Scenario.page_at_only_ab Scenario.roster []
           Hid Hname).
Defined.

(* ------------------------------------------------------------------ *)
(** * Sessions of the salary loop *)
(* ------------------------------------------------------------------ *)

(** C9, as stated, fails: a run of the salary loop over two players
    creates two sessions and sends each request through its own. *)
Lemma a_session_per_player :
  ~ single_client (snd (fetch_all_player_salaries Scenario.page_at Scenario.roster [])).
Proof. unfold single_client. vm_compute. intros [H _]. lia. Qed.

(** C9, amended.  [fetch_player_salaries] creates a session of its own at
    each call.  A run of the salary loop over a roster with the column
    [full_name] therefore creates one session per player, numbered in
    roster order after the sessions that existed before, and the request
    for the i-th player goes through the i-th of these sessions. *)
Theorem one_session_per_salary_fetch
  (page_at : string -> result (list node))
  (players_df : DataFrame) (t : trace) :
  In "full_name"%string (columns players_df) ->
  let cols := columns players_df in
  let n := List.length (sessions_created t) in
  let t' := snd (fetch_all_player_salaries page_at players_df t) in
  sessions_created t'
    = sessions_created t ++ seq n (List.length (rows players_df)) /\
  requests_made t'
    = requests_made t ++
      flat_map (fun sp => salary_request (fst sp) (row_get cols (snd sp) "full_name"))
               (combine (seq n (List.length (rows players_df))) (rows players_df)).
Proof.
  intros Hname cols n t'. subst t'.
  pose proof (fetch_all_player_salaries_run page_at players_df Hname
                (rows players_df) t) as Hp.
  rewrite <- (frame_eta players_df) in Hp. rewrite Hp. cbn [snd].
  rewrite sessions_created_app, requests_made_app. fold cols n.
  split; f_equal.
  - apply events_sessions. apply salaries_events_sessions.
  - apply events_requests.
    + apply salaries_events_sessions.
    + apply salaries_events_requests.
Qed.

Lemma one_session_per_salary_fetch_witness :
  In "full_name"%string (columns Scenario.roster) /\
  sessions_created (snd (fetch_all_player_salaries Scenario.page_at Scenario.roster []))
    = [0; 1] /\
  requests_made (snd (fetch_all_player_salaries Scenario.page_at Scenario.roster []))
    = [(0, "https://hoopshype.com/player/a-b/salary/"%string);
       (1, "https://hoopshype.com/player/c-d/salary/"%string)].
Proof.
  assert (Hname : In "full_name"%string (columns Scenario.roster))
    by (right; left; reflexivity).
  split; [exact Hname|].
  exact (one_session_per_salary_fetch Scenario.page_at Scenario.roster [] Hname).
Defined.

(* ------------------------------------------------------------------ *)
(** * The join keeps every player *)
(* ------------------------------------------------------------------ *)




(* ------------------------------------------------------------------ *)
(** * The address of a salary page *)
(* ------------------------------------------------------------------ *)

(** C7, as stated, fails: the program removes [" Jr."] wherever it
    occurs, not only at the end of the name. *)
Lemma jr_is_removed_inside_a_name :
  player_slug "Tim Hardaway Jr. II" = "tim-hardaway-ii"%string /\
  slug_by_suffix "Tim Hardaway Jr. II" = "tim-hardaway-jr.-ii"%string /\
  player_slug "Tim Hardaway Jr. II" <> slug_by_suffix "Tim Hardaway Jr. II".
Proof. repeat split. vm_compute. discriminate. Qed.

(** C7, amended.  For every full name in which [" Jr."] occurs nowhere
    but possibly at the very end, the slug is the name with the suffix
    [" Jr."] stripped if present, in lower case, with a hyphen for each
    space; so "James Harden" gives "james-harden" and
    "Wendell Carter Jr." gives "wendell-carter".  (In any other name the
    program removes the inner occurrences of [" Jr."] as well.) *)
Theorem player_slug_only_trailing (name : string) :
  PyStr.occurs_before_end " Jr." name = false ->
  player_slug name = slug_by_suffix name.
Proof.
  intros H.
  unfold player_slug, slug_by_suffix, PyStr.removesuffix.
  cbn [PyStr.replace].
  rewrite (PyStrFacts.replace_from_only_trailing " Jr." "")
    by (assumption || discriminate).
  destruct (PyStr.endswith " Jr." name); [|reflexivity].
  now rewrite PyStrFacts.append_empty_r.
Qed.

Lemma player_slug_only_trailing_witness :
  (PyStr.occurs_before_end " Jr." "Wendell Carter Jr." = false /\
   player_slug "Wendell Carter Jr." = "wendell-carter"%string) /\
  (PyStr.occurs_before_end " Jr." "James Harden" = false /\
   player_slug "James Harden" = "james-harden"%string).
Proof.
  split; (split; [reflexivity|]).
  - exact (player_slug_only_trailing "Wendell Carter Jr." eq_refl).
  - exact (player_slug_only_trailing "James Harden" eq_refl).
Defined.

(* ------------------------------------------------------------------ *)
(** * Parsing the salary table *)
(* ------------------------------------------------------------------ *)

Lemma records_spec (table_rows : list node) :
  forall acc all,
    records table_rows acc = Ok all ->
    (forall r, In r acc -> In r all) /\
    (forall row, In row table_rows ->
       exists r, salary_record row = Ok r /\ In r all).
Proof.
  induction table_rows as [|row rest IH]; intros acc all H; cbn [records] in H.
  - injection H as <-. split; [auto | intros row []].
  - destruct (salary_record row) as [r|e] eqn:E; [|discriminate H].
    destruct (IH _ _ H) as [Hacc Hrest]. split.
    + intros r' Hr'. apply Hacc. apply in_or_app. now left.
    + intros row' [<-|Hin].
      * exists r. split; [exact E|]. apply Hacc. apply in_or_app. right. now left.
      * now apply Hrest.
Qed.

Lemma records_total (table_rows : list node) :
  (forall row, In row table_rows -> is_ok (salary_record row) = true) ->
  forall acc, exists all, records table_rows acc = Ok all.
Proof.
  induction table_rows as [|row rest IH]; intros H acc; cbn [records].
  - now exists acc.
  - pose proof (H row (or_introl eq_refl)) as Hrow.
    destruct (salary_record row) as [r|e]; [|discriminate Hrow].
    apply IH. intros row' Hin. apply H. now right.
Qed.

(** C8.  Take a salary page on which the label is followed by a table
    with a body all of whose rows can be parsed, and in that body a row
    whose key cell holds "2021-22" and whose third cell holds
    "$1,234,567 (total)".  The row gives the record with season
    "2021-22" and salary "1234567", and [fetch_player_salaries] returns a
    table with the columns [season] and [salary] that has the row
    "2021-22", "1234567", both cells texts. *)
Theorem salary_row_is_parsed
  (page_at : string -> result (list node)) (name : string)
  (soup following : list node) (table tbody row key third : node) (t : trace) :
  page_at (player_url name) = Ok soup ->
  find_label soup = Some following ->
  find_next_table following = Some table ->
  find (is_tag "tbody") (descendants table) = Some tbody ->
  In row (filter (is_tag "tr") (descendants tbody)) ->
  (forall other, In other (filter (is_tag "tr") (descendants tbody)) ->
     is_ok (salary_record other) = true) ->
  find (fun n => is_tag "td" n && has_class "table-key" n) (descendants row) = Some key ->
  nth_error (filter (is_tag "td") (descendants row)) 2 = Some third ->
  PyStr.strip (get_text key) = "2021-22"%string ->
  PyStr.strip (get_text third) = "$1,234,567 (total)"%string ->
  salary_record row = Ok {| season := "2021-22"; salary := "1234567" |} /\
  exists salaries_df,
    fst (fetch_player_salaries page_at (Some (VStr name)) t) = Ok salaries_df /\
    columns salaries_df = ["season"; "salary"]%string /\
    In [Some (VStr "2021-22"); Some (VStr "1234567")] (rows salaries_df).
Proof.
  intros Hpage Hlabel Htable Hbody Hrow Hall Hkey Hthird Hseason Hsalary.
  assert (Hrec : salary_record row = Ok {| season := "2021-22"; salary := "1234567" |}).
  { unfold salary_record. rewrite Hkey, Hthird, Hseason, Hsalary. reflexivity. }
  split; [exact Hrec|].
  rewrite fetch_player_salaries_run. cbn [fst].
  unfold salaries_outcome. cbn [as_text]. rewrite Hpage.
  unfold scrape. rewrite Hlabel, Htable, Hbody.
  destruct (records_total _ Hall []) as [all Hrecords]. rewrite Hrecords.
  destruct (records_spec _ _ _ Hrecords) as [_ Hin].
  destruct (Hin row Hrow) as [r [Hr Hr_in]].
  rewrite Hrec in Hr. injection Hr as <-.
  exists (frame_of_records all). split; [reflexivity|].
  destruct all as [|r0 rest]; [destruct Hr_in|].
  split; [reflexivity|].
  cbn [frame_of_records rows].
  change [Some (VStr "2021-22"); Some (VStr "1234567")]
    with ((fun r => [Some (VStr (season r)); Some (VStr (salary r))])
            {| season := "2021-22"; salary := "1234567" |}).
  apply in_map. exact Hr_in.
Qed.

Lemma salary_row_is_parsed_witness :
  salary_record Scenario.row_2021 = Ok {| season := "2021-22"; salary := "1234567" |} /\
  exists salaries_df,
    fst (fetch_player_salaries Scenario.page_at (Some (VStr "C D")) []) = Ok salaries_df /\
    columns salaries_df = ["season"; "salary"]%string /\
    In [Some (VStr "2021-22"); Some (VStr "1234567")] (rows salaries_df).
Proof.
  apply (salary_row_is_parsed Scenario.page_at "C D" Scenario.page_with_table
           [Text "Past Salaries";
            Tag "table" [] [Tag "tbody" [] [Scenario.row_2021]];
            Tag "tbody" [] [Scenario.row_2021];
            Scenario.row_2021;
            Tag "td" ["table-key"%string] [Text "2021-22"]; Text "2021-22";
            Tag "td" [] [];
            Tag "td" [] [Text "$1,234,567 (total)"]; Text "$1,234,567 (total)"]
           (Tag "table" [] [Tag "tbody" [] [Scenario.row_2021]])
           (Tag "tbody" [] [Scenario.row_2021])
           Scenario.row_2021
           (Tag "td" ["table-key"%string] [Text "2021-22"])
           (Tag "td" [] [Text "$1,234,567 (total)"])
           []).
  - reflexivity.
  - reflexivity.
  - reflexivity.
  - reflexivity.
  - left. reflexivity.
  - intros other [<-|[]]. reflexivity.
  - reflexivity.
  - reflexivity.
  - reflexivity.
  - reflexivity.
Defined.

(* ------------------------------------------------------------------ *)
(** * A salary page without the table *)
(* ------------------------------------------------------------------ *)

(** When the label is on the page and no table follows it, the scraper
    prints that the table was not found and returns the empty table. *)
Lemma label_without_table_is_reported
  (page_at : string -> result (list node)) (name : string)
  (soup : list node) (t : trace) :
  page_at (player_url name) = Ok soup ->
  table_not_found soup = true ->
  fetch_player_salaries page_at (Some (VStr name)) t =
    (Ok empty_frame,
     t ++ [ESession (List.length (sessions_created t));
           EGet (List.length (sessions_created t)) (player_url name);
           EPrint ("Past salaries table not found for player " ++ name)]).
Proof.
  intros Hpage Hnot. rewrite fetch_player_salaries_run.
  unfold salaries_outcome, salaries_events. cbn [as_text]. rewrite Hpage, Hnot.
  unfold table_not_found in Hnot. unfold scrape.
  destruct (find_label soup) as [following|]; [|discriminate Hnot].
  destruct (find_next_table following); [discriminate Hnot | reflexivity].
Qed.

(** C3.  What the program does on a fetched salary page that has no
    "Past Salaries" label, and with it no "Past Salaries" table: it
    raises an [AttributeError], having created its session and sent its
    request, and prints nothing, where the claim has it print that the
    table was not found and return no rows. *)
Theorem page_without_label_raises
  (page_at : string -> result (list node)) (name : string)
  (soup : list node) (t : trace) :
  page_at (player_url name) = Ok soup ->
  find_label soup = None ->
  fetch_player_salaries page_at (Some (VStr name)) t =
    (Raise (AttributeError "'NoneType' object has no attribute 'find_next'"),
     t ++ [ESession (List.length (sessions_created t));
           EGet (List.length (sessions_created t)) (player_url name)]).
Proof.
  intros Hpage Hlabel. rewrite fetch_player_salaries_run.
  unfold salaries_outcome, salaries_events, scrape, table_not_found.
  cbn [as_text]. now rewrite Hpage, Hlabel.
Qed.

Lemma page_without_label_raises_witness :
  Scenario.page_at (player_url "E F") = Ok Scenario.page_without_label /\
  find_label Scenario.page_without_label = None /\
  fetch_player_salaries Scenario.page_at (Some (VStr "E F")) [] =
    (Raise (AttributeError "'NoneType' object has no attribute 'find_next'"),
     [ESession 0; EGet 0 "https://hoopshype.com/player/e-f/salary/"]).
Proof.
  split; [reflexivity|]. split; [reflexivity|].
  exact (page_without_label_raises Scenario.page_at "E F"
           Scenario.page_without_label [] eq_refl eq_refl).
Defined.

(* ------------------------------------------------------------------ *)
(** * A source without rows *)
(* ------------------------------------------------------------------ *)

Lemma collects_nothing (key_label tag_label : string)
  (outcome : cell -> result DataFrame) (cols : list string)
  (players : list (list cell)) :
  (forall player, In player players ->
     match outcome (row_get cols player key_label) with
     | Ok df => empty df = true
     | Raise _ => True
     end) ->
  flat_map (contribution key_label tag_label outcome cols) players = [].
Proof.
  induction players as [|p rest IH]; intros H; [reflexivity|].
  cbn [flat_map]. rewrite IH by (intros q Hq; apply H; now right).
  pose proof (H p (or_introl eq_refl)) as Hp. unfold contribution.
  destruct (outcome (row_get cols p key_label)) as [df|e]; [|reflexivity].
  now rewrite Hp.
Qed.

(** C1.  What the program does when a source has a row for no player.
    For a roster with the columns [id] and [full_name], a loop none of
    whose fetches gives a row returns the table without columns, and
    [merge_data] raises a [KeyError] on that table, whichever of the three
    tables it is (for the awards table and the salary table: once the
    joins before it have settled their labels).  The claim has
    [merge_data] succeed and keep every player row. *)
Theorem empty_source_breaks_merge_data
  (career_stats headline_stats : cell -> result DataFrame)
  (page_at : string -> result (list node))
  (players_df : DataFrame) (t : trace) :
  In "id"%string (columns players_df) ->
  In "full_name"%string (columns players_df) ->
  (yields_no_rows (fetch_player_stats career_stats) players_df "id" ->
   fst (fetch_all_player_stats career_stats players_df t) = Ok empty_frame) /\
  (yields_no_rows (fetch_player_awards headline_stats) players_df "id" ->
   fst (fetch_all_player_awards headline_stats players_df t) = Ok empty_frame) /\
  (yields_no_rows (fetch_player_salaries page_at) players_df "full_name" ->
   fst (fetch_all_player_salaries page_at players_df t) = Ok empty_frame) /\
  (forall awards_df salaries_df,
     merge_data players_df empty_frame awards_df salaries_df
       = Raise (KeyError "player_id")) /\
  (forall stats_df salaries_df c1,
     merge_labels (columns players_df) (columns stats_df) "id" "player_id" = Ok c1 ->
     merge_data players_df stats_df empty_frame salaries_df
       = Raise (KeyError "player_id")) /\
  (forall stats_df awards_df c1 c2,
     merge_labels (columns players_df) (columns stats_df) "id" "player_id" = Ok c1 ->
     merge_labels c1 (columns awards_df) "player_id" "player_id" = Ok c2 ->
     merge_data players_df stats_df awards_df empty_frame
       = Raise (KeyError "full_name")).
Proof.
  intros Hid Hname.
  pose proof (fetch_all_player_stats_run career_stats players_df Hid Hname
                (rows players_df) t) as Hs.
  pose proof (fetch_all_player_awards_run headline_stats players_df Hid Hname
                (rows players_df) t) as Ha.
  pose proof (fetch_all_player_salaries_run page_at players_df Hname
                (rows players_df) t) as Hp.
  rewrite <- (frame_eta players_df) in Hs, Ha, Hp.
  rewrite Hs, Ha, Hp. cbn [fst]. unfold yields_no_rows.
  split; [|split; [|split; [|split; [|split]]]].
  - intros H. now rewrite collects_nothing.
  - intros H. now rewrite collects_nothing.
  - intros H. rewrite collects_nothing; [reflexivity|].
    intros player Hin. specialize (H player Hin).
    now rewrite fetch_player_salaries_run in H.
  - intros awards_df salaries_df. unfold merge_data.
    now rewrite (merge_raises players_df empty_frame "id" "player_id"
                   (KeyError "player_id")).
  - intros stats_df salaries_df c1 E1. unfold merge_data.
    rewrite (merge_ok players_df stats_df "id" "player_id" c1 E1).
    now rewrite (merge_raises
                   {| columns := c1;
                      rows := merge_rows players_df stats_df "id" "player_id" |}
                   empty_frame "player_id" "player_id" (KeyError "player_id")).
  - intros stats_df awards_df c1 c2 E1 E2. unfold merge_data.
    rewrite (merge_ok players_df stats_df "id" "player_id" c1 E1).
    set (m1 := {| columns := c1;
                  rows := merge_rows players_df stats_df "id" "player_id" |}).
    rewrite (merge_ok m1 awards_df "player_id" "player_id" c2 E2).
    now rewrite (merge_raises
                   {| columns := c2;
                      rows := merge_rows m1 awards_df "player_id" "player_id" |}
                   empty_frame "full_name" "full_name" (KeyError "full_name")).
Qed.

Lemma empty_source_breaks_merge_data_witness :
  In "id"%string (columns Scenario.roster) /\
  In "full_name"%string (columns Scenario.roster) /\
  fst (fetch_all_player_stats Scenario.nothing Scenario.roster []) = Ok empty_frame /\
  fst (fetch_all_player_awards Scenario.headline_stats Scenario.roster [])
    = Ok empty_frame /\
  fst (fetch_all_player_salaries Scenario.page_at_nothing Scenario.roster [])
    = Ok empty_frame /\
  merge_data Scenario.roster empty_frame Scenario.awards_table Scenario.salaries_table
    = Raise (KeyError "player_id") /\
  merge_data Scenario.roster Scenario.stats_table empty_frame Scenario.salaries_table
    = Raise (KeyError "player_id") /\
  merge_data Scenario.roster Scenario.stats_table Scenario.awards_table empty_frame
    = Raise (KeyError "full_name").
Proof.
  assert (Hid : In "id"%string (columns Scenario.roster)) by (left; reflexivity).
  assert (Hname : In "full_name"%string (columns Scenario.roster))
    by (right; left; reflexivity).
  destruct (empty_source_breaks_merge_data Scenario.nothing Scenario.headline_stats
              Scenario.page_at_nothing Scenario.roster [] Hid Hname)
    as [Hs [Ha [Hp [Ms [Ma Mp]]]]].
  split; [exact Hid|]. split; [exact Hname|].
  split; [|split; [|split; [|split; [|split]]]].
  - apply Hs. intros player [<-|[<-|[]]]; reflexivity.
  - apply Ha. intros player [<-|[<-|[]]]; reflexivity.
  - apply Hp. intros player [<-|[<-|[]]]; reflexivity.
  - apply Ms.
  - exact (Ma Scenario.stats_table Scenario.salaries_table _ eq_refl).
  - exact (Mp Scenario.stats_table Scenario.awards_table _ _ eq_refl eq_refl).
Defined.

(* ------------------------------------------------------------------ *)
(** * The end-to-end scenario *)
(* ------------------------------------------------------------------ *)

(** Had the awards table its columns, the join of the scenario would give
    the two rows the specification expects. *)
Example scenario_with_awards_columns :
  merge_data Scenario.roster Scenario.stats_table
    Scenario.awards_no_rows Scenario.salaries_table
  = Ok {| columns := ["id"; "full_name"; "PLAYER_ID_x"; "SEASON_ID"; "PTS_x";
                      "player_id"; "PLAYER_ID_y"; "PLAYER_NAME"; "PTS_y";
                      "season"; "salary"]%string;
          rows := [[Some (VInt 1); Some (VStr "A B");
                    Some (VInt 1); Some (VStr "2021-22"); Some (VInt 900);
                    Some (VInt 1); None; None; None; None; None];
                   [Some (VInt 2); Some (VStr "C D");
                    None; None; None; None; None; None; None;
                    Some (VStr "2021-22"); Some (VStr "1234567")]] |}.
Proof. reflexivity. Qed.

(** C2.  The program on the scenario: roster A B (id 1) and C D (id 2),
    stats rows for id 1 only, awards rows for nobody, salary rows for C D
    only.  The stats loop and the salary loop return their one-row
    tables, the awards loop returns the table without columns, and
    [merge_data] raises [KeyError] for [player_id] on it; the run of
    [main] ends with that exception and writes no file.  The claim
    expects a merged table of two rows. *)
Theorem end_to_end_scenario_raises :
  fst (fetch_all_player_stats Scenario.career_stats Scenario.roster [])
    = Ok Scenario.stats_table /\
  fst (fetch_all_player_awards Scenario.headline_stats Scenario.roster [])
    = Ok empty_frame /\
  fst (fetch_all_player_salaries Scenario.page_at Scenario.roster [])
    = Ok Scenario.salaries_table /\
  merge_data Scenario.roster Scenario.stats_table empty_frame Scenario.salaries_table
    = Raise (KeyError "player_id") /\
  fst (main (Ok Scenario.roster) Scenario.career_stats Scenario.headline_stats
         Scenario.page_at [])
    = Raise (KeyError "player_id") /\
  forall filename df,
    ~ In (EToCsv filename df)
         (snd (main (Ok Scenario.roster) Scenario.career_stats
                 Scenario.headline_stats Scenario.page_at [])).
Proof.
  repeat split.
  vm_compute. intros filename df H.
  repeat (destruct H as [H|H]; [discriminate H|]). exact H.
Qed.

(* ------------------------------------------------------------------ *)
(** * Characters of slugs and of parsed cells *)
(* ------------------------------------------------------------------ *)

Section CharFacts.

Local Open Scope string_scope.

Lemma all_chars_app (p : ascii -> bool) (a b : string) :
  all_chars p (a ++ b) = all_chars p a && all_chars p b.
Proof.
  induction a as [|c t IH]; [reflexivity|].
  cbn [String.append all_chars]. now rewrite IH, andb_assoc.
Qed.

Lemma startswith_char (c x : ascii) (t : string) :
  PyStr.startswith (String c "") (String x t) = Ascii.eqb x c.
Proof.
  unfold PyStr.startswith. cbn [prefix].
  destruct (ascii_dec c x) as [->|N].
  - destruct t; now rewrite Ascii.eqb_refl.
  - symmetry. apply Ascii.eqb_neq. congruence.
Qed.

(** Replacing a character leaves characters of the text and of the
    replacement only. *)
Lemma replace_char_keeps (p : ascii -> bool) (c : ascii) (new s : string) :
  all_chars p new = true ->
  all_chars p s = true ->
  all_chars p (PyStr.replace (String c "") new s) = true.
Proof.
  intros Hnew. cbn [PyStr.replace].
  induction s as [|x t IH]; intros H; [reflexivity|].
  cbn [all_chars] in H. apply andb_true_iff in H as [Hx Ht].
  cbn [PyStr.replace_from]. rewrite startswith_char.
  destruct (Ascii.eqb x c).
  - cbn [String.length Nat.sub]. rewrite all_chars_app, Hnew. now apply IH.
  - cbn [all_chars]. rewrite Hx. now apply IH.
Qed.

(** Replacing a character by a text without it removes it. *)
Lemma replace_char_removes (c : ascii) (new s : string) :
  no_char c new = true ->
  no_char c (PyStr.replace (String c "") new s) = true.
Proof.
  intros Hnew. unfold no_char in *. cbn [PyStr.replace].
  induction s as [|x t IH]; [reflexivity|].
  cbn [PyStr.replace_from]. rewrite startswith_char.
  destruct (Ascii.eqb x c) eqn:E.
  - cbn [String.length Nat.sub]. now rewrite all_chars_app, Hnew.
  - cbn [all_chars]. now rewrite E.
Qed.

(** A text without the first character of [old] has no occurrence of
    [old] to replace. *)
Lemma replace_nothing (a : ascii) (o new s : string) :
  no_char a s = true ->
  PyStr.replace (String a o) new s = s.
Proof.
  unfold no_char. cbn [PyStr.replace].
  induction s as [|x t IH]; intros H; [reflexivity|].
  cbn [all_chars] in H. apply andb_true_iff in H as [Hx Ht].
  cbn [PyStr.replace_from].
  replace (PyStr.startswith (String a o) (String x t)) with false.
  - now rewrite IH.
  - unfold PyStr.startswith. cbn [prefix].
    destruct (ascii_dec a x) as [->|N]; [|reflexivity].
    now rewrite Ascii.eqb_refl in Hx.
Qed.

Lemma lower_char_not_upper (c : ascii) : is_upper (PyStr.lower_char c) = false.
Proof. destruct c as [[] [] [] [] [] [] [] []]; reflexivity. Qed.

Lemma lower_char_idempotent (c : ascii) :
  PyStr.lower_char (PyStr.lower_char c) = PyStr.lower_char c.
Proof. destruct c as [[] [] [] [] [] [] [] []]; reflexivity. Qed.

Lemma lower_char_space (c : ascii) :
  Ascii.eqb (PyStr.lower_char c) " " = Ascii.eqb c " ".
Proof. destruct c as [[] [] [] [] [] [] [] []]; reflexivity. Qed.

Lemma lower_not_upper (s : string) :
  all_chars (fun c => negb (is_upper c)) (PyStr.lower s) = true.
Proof.
  induction s as [|c t IH]; [reflexivity|].
  cbn [PyStr.lower all_chars]. now rewrite lower_char_not_upper, IH.
Qed.

Lemma lower_idempotent (s : string) : PyStr.lower (PyStr.lower s) = PyStr.lower s.
Proof.
  induction s as [|c t IH]; [reflexivity|].
  cbn [PyStr.lower]. now rewrite lower_char_idempotent, IH.
Qed.

(** Lower-casing and putting hyphens for spaces can be done in either
    order. *)
Lemma lower_hyphens (s : string) :
  PyStr.lower (PyStr.replace " " "-" s) = PyStr.replace " " "-" (PyStr.lower s).
Proof.
  cbn [PyStr.replace].
  induction s as [|c t IH]; [reflexivity|].
  cbn [PyStr.lower PyStr.replace_from]. rewrite !startswith_char, lower_char_space.
  destruct (Ascii.eqb c " ") eqn:E.
  - cbn [String.length Nat.sub String.append PyStr.lower]. now rewrite IH.
  - cbn [PyStr.lower]. now rewrite IH.
Qed.

Lemma split_space_head_no_space (s : string) :
  no_char " " (PyStr.split_space_head s) = true.
Proof.
  unfold no_char. induction s as [|c t IH]; [reflexivity|].
  cbn [PyStr.split_space_head]. destruct (Ascii.eqb c " ") eqn:E; [reflexivity|].
  cbn [all_chars]. now rewrite E, IH.
Qed.

Lemma lstrip_start (s : string) : starts_with_space (PyStr.lstrip s) = false.
Proof.
  induction s as [|c t IH]; [reflexivity|].
  cbn [PyStr.lstrip]. destruct (PyStr.is_space c) eqn:E; [exact IH|].
  cbn [starts_with_space]. exact E.
Qed.

Lemma rstrip_start (s : string) :
  starts_with_space s = false -> starts_with_space (PyStr.rstrip s) = false.
Proof.
  destruct s as [|c t]; [reflexivity|]. cbn [starts_with_space]. intros H.
  cbn [PyStr.rstrip]. destruct (PyStr.rstrip t); cbn; now rewrite ?H.
Qed.

Lemma rstrip_end (s : string) : ends_with_space (PyStr.rstrip s) = false.
Proof.
  induction s as [|c t IH]; [reflexivity|].
  cbn [PyStr.rstrip]. destruct (PyStr.rstrip t) as [|c' r] eqn:E.
  - destruct (PyStr.is_space c) eqn:Ec; [reflexivity|]. cbn. exact Ec.
  - exact IH.
Qed.

End CharFacts.

(** X1.  The slug of any name has no space and no upper-case letter. *)
Theorem player_slug_has_no_space_no_capital (player_name : string) :
  no_char " " (player_slug player_name) = true /\
  all_chars (fun c => negb (is_upper c)) (player_slug player_name) = true.
Proof.
  unfold player_slug. split.
  - now apply replace_char_removes.
  - apply replace_char_keeps; [reflexivity | apply lower_not_upper].
Qed.

(** X2.  Making the slug of a slug changes nothing. *)
Theorem player_slug_idempotent (player_name : string) :
  player_slug (player_slug player_name) = player_slug player_name.
Proof.
  assert (Hspace : no_char " " (player_slug player_name) = true)
    by (unfold player_slug; now apply replace_char_removes).
  unfold player_slug at 1.
  rewrite (replace_nothing " " "Jr." "" _ Hspace).
  unfold player_slug at 1. rewrite lower_hyphens, lower_idempotent.
  fold (player_slug player_name).
  exact (replace_nothing " " "" "-" _ Hspace).
Qed.

(** X3.  Whenever a row of the salary table is parsed, the salary of the
    record has no currency sign, no comma and no space, and the season
    neither starts nor ends with white space. *)
Theorem salary_record_is_clean (row : node) (r : SalaryRecord) :
  salary_record row = Ok r ->
  no_char "$" (salary r) = true /\
  no_char "," (salary r) = true /\
  no_char " " (salary r) = true /\
  starts_with_space (season r) = false /\
  ends_with_space (season r) = false.
Proof.
  unfold salary_record.
  destruct (find _ (descendants row)) as [key|]; [|discriminate].
  destruct (nth_error _ 2) as [third|]; [|discriminate].
  intros H. injection H as <-. cbn [season salary].
  repeat split.
  - apply replace_char_keeps; [reflexivity|].
    now apply replace_char_removes.
  - now apply replace_char_removes.
  - apply replace_char_keeps; [reflexivity|].
    apply replace_char_keeps; [reflexivity|].
    apply split_space_head_no_space.
  - apply rstrip_start, lstrip_start.
  - apply rstrip_end.
Qed.

Lemma salary_record_is_clean_witness :
  salary_record Scenario.row_2021 = Ok {| season := "2021-22"; salary := "1234567" |} /\
  no_char "$" "1234567" = true /\
  no_char "," "1234567" = true /\
  no_char " " "1234567" = true /\
  starts_with_space "2021-22" = false /\
  ends_with_space "2021-22" = false.
Proof.
  split; [reflexivity|].
  exact (salary_record_is_clean Scenario.row_2021
           {| season := "2021-22"; salary := "1234567" |} eq_refl).
Defined.

(* ------------------------------------------------------------------ *)
(** * The scraper on pages of every shape *)
(* ------------------------------------------------------------------ *)

Lemma records_first_failure (good : list node) (bad : node) (rest : list node)
  (e : exn) :
  (forall row, In row good -> is_ok (salary_record row) = true) ->
  salary_record bad = Raise e ->
  forall acc, records (good ++ bad :: rest) acc = Raise e.
Proof.
  intros Hgood Hbad. induction good as [|g t IH]; intros acc.
  - cbn [app records]. now rewrite Hbad.
  - cbn [app records]. pose proof (Hgood g (or_introl eq_refl)) as Hg.
    destruct (salary_record g); [|discriminate Hg].
    apply IH. intros row Hin. apply Hgood. now right.
Qed.

Lemma records_in_order (table_rows : list node) :
  forall acc all,
    records table_rows acc = Ok all ->
    exists news,
      all = acc ++ news /\
      Forall2 (fun tr rec => salary_record tr = Ok rec) table_rows news.
Proof.
  induction table_rows as [|row rest IH]; intros acc all H; cbn [records] in H.
  - injection H as <-. exists []. split; [now rewrite app_nil_r | constructor].
  - destruct (salary_record row) as [r|e] eqn:E; [|discriminate H].
    destruct (IH _ _ H) as [news [-> Hall]].
    exists (r :: news). split; [now rewrite <- app_assoc|].
    now constructor.
Qed.

Lemma frame_of_records_rows (all : list SalaryRecord) :
  rows (frame_of_records all) = map record_cells all.
Proof. destruct all; reflexivity. Qed.

(** X4.  One row of the table body that cannot be parsed discards the
    whole table of the player: the scraper raises the exception of the
    first such row, whatever rows come before and after it, having
    created its session and sent its request. *)
Theorem malformed_row_discards_the_table
  (page_at : string -> result (list node)) (name : string)
  (soup following : list node) (table tbody : node)
  (good : list node) (bad : node) (rest : list node) (e : exn) (t : trace) :
  page_at (player_url name) = Ok soup ->
  find_label soup = Some following ->
  find_next_table following = Some table ->
  find (is_tag "tbody") (descendants table) = Some tbody ->
  filter (is_tag "tr") (descendants tbody) = good ++ bad :: rest ->
  (forall row, In row good -> is_ok (salary_record row) = true) ->
  salary_record bad = Raise e ->
  fetch_player_salaries page_at (Some (VStr name)) t =
    (Raise e,
     t ++ [ESession (List.length (sessions_created t));
           EGet (List.length (sessions_created t)) (player_url name)]).
Proof.
  intros Hpage Hlabel Htable Hbody Hrows Hgood Hbad.
  rewrite fetch_player_salaries_run.
  unfold salaries_outcome, salaries_events, scrape, table_not_found.
  cbn [as_text]. rewrite Hpage, Hlabel, Htable, Hbody, Hrows.
  now rewrite (records_first_failure good bad rest e Hgood Hbad).
Qed.

Lemma malformed_row_discards_the_table_witness :
  salary_record Cases.row_short = Raise (IndexError "list index out of range") /\
  fetch_player_salaries Cases.site_short_row (Some (VStr "A B")) [] =
    (Raise (IndexError "list index out of range"),
     [ESession 0; EGet 0 "https://hoopshype.com/player/a-b/salary/"]).
Proof.
  split; [reflexivity|].
  apply (malformed_row_discards_the_table Cases.site_short_row "A B"
           (Cases.page_of_table Cases.table_with_short_row)
           (skipn 3 (soup_elements (Cases.page_of_table Cases.table_with_short_row)))
           Cases.table_with_short_row
           (Tag "tbody" [] [Scenario.row_2021; Cases.row_short; Cases.row_2022])
           [Scenario.row_2021] Cases.row_short [Cases.row_2022]).
  - reflexivity.
  - reflexivity.
  - reflexivity.
  - reflexivity.
  - reflexivity.
  - intros row [<-|[]]. reflexivity.
  - reflexivity.
Defined.

(** X5.  A table whose rows are not inside a body makes the scraper raise
    an [AttributeError]: no row is read and nothing is printed. *)
Theorem table_without_body_raises
  (page_at : string -> result (list node)) (name : string)
  (soup following : list node) (table : node) (t : trace) :
  page_at (player_url name) = Ok soup ->
  find_label soup = Some following ->
  find_next_table following = Some table ->
  find (is_tag "tbody") (descendants table) = None ->
  fetch_player_salaries page_at (Some (VStr name)) t =
    (Raise (AttributeError "'NoneType' object has no attribute 'find_all'"),
     t ++ [ESession (List.length (sessions_created t));
           EGet (List.length (sessions_created t)) (player_url name)]).
Proof.
  intros Hpage Hlabel Htable Hbody.
  rewrite fetch_player_salaries_run.
  unfold salaries_outcome, salaries_events, scrape, table_not_found.
  cbn [as_text]. now rewrite Hpage, Hlabel, Htable, Hbody.
Qed.

Lemma table_without_body_raises_witness :
  fetch_player_salaries Cases.site_without_body (Some (VStr "A B")) [] =
    (Raise (AttributeError "'NoneType' object has no attribute 'find_all'"),
     [ESession 0; EGet 0 "https://hoopshype.com/player/a-b/salary/"]).
Proof.
  apply (table_without_body_raises Cases.site_without_body "A B"
           (Cases.page_of_table Cases.table_without_body)
           (skipn 3 (soup_elements (Cases.page_of_table Cases.table_without_body)))
           Cases.table_without_body); reflexivity.
Defined.

(** X6.  When the label is on the page and no table comes after it, the
    scraper does not raise: it prints
    "Past salaries table not found for player <name>" and returns the
    table without columns and rows. *)
Theorem label_without_table_gives_no_rows
  (page_at : string -> result (list node)) (name : string)
  (soup following : list node) (t : trace) :
  page_at (player_url name) = Ok soup ->
  find_label soup = Some following ->
  find_next_table following = None ->
  fetch_player_salaries page_at (Some (VStr name)) t =
    (Ok empty_frame,
     t ++ [ESession (List.length (sessions_created t));
           EGet (List.length (sessions_created t)) (player_url name);
           EPrint ("Past salaries table not found for player " ++ name)]).
Proof.
  intros Hpage Hlabel Htable.
  apply (label_without_table_is_reported page_at name soup t Hpage).
  unfold table_not_found. now rewrite Hlabel, Htable.
Qed.

Lemma label_without_table_gives_no_rows_witness :
  fetch_player_salaries Scenario.page_at (Some (VStr "A B")) [] =
    (Ok empty_frame,
     [ESession 0; EGet 0 "https://hoopshype.com/player/a-b/salary/";
      EPrint "Past salaries table not found for player A B"]).
Proof.
  apply (label_without_table_gives_no_rows Scenario.page_at "A B"
           Scenario.page_without_table [Text "Past Salaries"]); reflexivity.
Defined.

(** X7.  Whatever the name and the page, and also when it raises, a call
    of the scraper creates exactly one session, sends at most one
    request (one, through that session, when the name is a text), never
    sleeps and writes no file. *)
Theorem scraper_effects
  (page_at : string -> result (list node)) (player_name : cell) (t : trace) :
  let n := List.length (sessions_created t) in
  let t' := snd (fetch_player_salaries page_at player_name t) in
  sessions_created t' = sessions_created t ++ [n] /\
  requests_made t' = requests_made t ++ salary_request n player_name /\
  sleeps t' = sleeps t /\
  csv_writes t' = csv_writes t.
Proof.
  intros n t'. subst t'. rewrite fetch_player_salaries_run. cbn [snd]. fold n.
  rewrite sessions_created_app, requests_made_app, sleeps_app.
  rewrite salaries_events_sessions, salaries_events_requests, salaries_events_sleeps.
  rewrite app_nil_r. repeat split.
  unfold csv_writes. rewrite flat_map_app.
  rewrite <- (app_nil_r (flat_map _ t)) at 2. f_equal.
  unfold salaries_events. cbn [flat_map app].
  destruct (as_text player_name) as [name|]; [|reflexivity].
  cbn [flat_map app]. destruct (page_at _) as [soup|]; [|reflexivity].
  destruct (table_not_found soup); reflexivity.
Qed.

(** X8.  When the label is followed by a table with a body all of whose
    rows can be parsed, the scraper returns a table with one row for each
    row of the body, in the order of the page, holding the season and the
    salary of that row. *)
Theorem salary_table_has_a_row_per_body_row
  (page_at : string -> result (list node)) (name : string)
  (soup following : list node) (table tbody : node) (t : trace) :
  page_at (player_url name) = Ok soup ->
  find_label soup = Some following ->
  find_next_table following = Some table ->
  find (is_tag "tbody") (descendants table) = Some tbody ->
  (forall row, In row (filter (is_tag "tr") (descendants tbody)) ->
     is_ok (salary_record row) = true) ->
  exists salaries_df,
    fst (fetch_player_salaries page_at (Some (VStr name)) t) = Ok salaries_df /\
    Forall2 (fun tr cells =>
               exists r, salary_record tr = Ok r /\ cells = record_cells r)
            (filter (is_tag "tr") (descendants tbody)) (rows salaries_df).
Proof.
  intros Hpage Hlabel Htable Hbody Hall.
  rewrite fetch_player_salaries_run. cbn [fst].
  unfold salaries_outcome, scrape. cbn [as_text].
  rewrite Hpage, Hlabel, Htable, Hbody.
  destruct (records_total _ Hall []) as [all Hrecords]. rewrite Hrecords.
  exists (frame_of_records all). split; [reflexivity|].
  rewrite frame_of_records_rows.
  destruct (records_in_order _ _ _ Hrecords) as [news [-> Hnews]].
  cbn [app]. clear Hrecords Hall.
  induction Hnews as [|tr r trs rs Hr _ IH]; [constructor|].
  cbn [map]. constructor; [|exact IH]. now exists r.
Qed.

Lemma salary_table_has_a_row_per_body_row_witness :
  exists salaries_df,
    fst (fetch_player_salaries Cases.site_two_rows (Some (VStr "A B")) []) = Ok salaries_df /\
    Forall2 (fun tr cells =>
               exists r, salary_record tr = Ok r /\ cells = record_cells r)
            [Scenario.row_2021; Cases.row_2022] (rows salaries_df).
Proof.
  apply (salary_table_has_a_row_per_body_row Cases.site_two_rows "A B"
           (Cases.page_of_table Cases.table_of_two_rows)
           (skipn 3 (soup_elements (Cases.page_of_table Cases.table_of_two_rows)))
           Cases.table_of_two_rows
           (Tag "tbody" [] [Scenario.row_2021; Cases.row_2022]) []).
  - reflexivity.
  - reflexivity.
  - reflexivity.
  - reflexivity.
  - intros row [<-|[<-|[]]]; reflexivity.
Defined.

(* ------------------------------------------------------------------ *)
(** * The loops on rosters of every shape *)
(* ------------------------------------------------------------------ *)

Lemma getitem_absent (cols : list string) (r : list cell) (c : string) :
  ~ In c cols -> getitem cols r c = Raise (KeyError c).
Proof. intros H. unfold getitem. apply mem_false in H. now rewrite H. Qed.

Section LoopWithoutKey.

Variables what key_label tag_label : string.
Variable fetch : cell -> M DataFrame.
Variable cols : list string.

Hypothesis no_key : ~ In key_label cols.
Hypothesis has_name : In "full_name"%string cols.

Let line (player : list cell) : string :=
  ("Failed to fetch " ++ what ++ " for player "
     ++ cell_str (row_get cols player "full_name") ++ ": " ++ exn_str (KeyError key_label))%string.

(** Without the column the loop reads, every turn ends in the handler
    before the fetch is called. *)
Lemma for_each_without_key (players : list (list cell)) :
  forall (all : list DataFrame) (t : trace),
    for_each players all (fetch_one what key_label tag_label fetch cols) t =
      (Ok all, t ++ map (fun player => EPrint (line player)) players).
Proof.
  induction players as [|player rest IH]; intros all t.
  - cbn. now rewrite app_nil_r.
  - cbn [for_each map]. unfold bind at 1.
    assert (E : fetch_one what key_label tag_label fetch cols player all t
                = (Ok all, t ++ [EPrint (line player)])).
    { unfold fetch_one, try_except. unfold bind at 1. unfold lift at 1.
      rewrite (getitem_absent cols player key_label no_key).
      unfold bind at 1. unfold lift at 1.
      rewrite (getitem_ok cols player "full_name" has_name).
      reflexivity. }
    rewrite E, IH. now rewrite <- app_assoc.
Qed.

Lemma fetch_all_without_key (players : list (list cell)) (t : trace) :
  fetch_all what key_label tag_label fetch {| columns := cols; rows := players |} t =
    (Ok empty_frame, t ++ map (fun player => EPrint (line player)) players).
Proof.
  unfold fetch_all. cbn [rows columns]. unfold bind.
  now rewrite for_each_without_key.
Qed.

End LoopWithoutKey.

Section LoopWithoutName.

Variables what key_label tag_label : string.
Variable fetch : cell -> M DataFrame.
Variable outcome : cell -> result DataFrame.
Variable fetch_events : cell -> nat -> list event.
Variable cols : list string.

Hypothesis fetch_run :
  forall k t,
    fetch k t = (outcome k, t ++ fetch_events k (List.length (sessions_created t))).
Hypothesis has_key : In key_label cols.
Hypothesis no_name : ~ In "full_name"%string cols.

Let body := fetch_one what key_label tag_label fetch cols.

Lemma fetch_one_returns (player : list cell) (all : list DataFrame) (t : trace)
  (df : DataFrame) :
  outcome (row_get cols player key_label) = Ok df ->
  exists all' t', body player all t = (Ok all', t').
Proof.
  intros H. unfold body, fetch_one, try_except.
  unfold bind at 1. unfold lift at 1.
  rewrite (getitem_ok cols player key_label has_key).
  unfold bind at 1. rewrite fetch_run, H.
  unfold bind at 1. destruct (empty df); cbn [negb].
  - unfold ret at 1. unfold bind, sleep, emit, ret. eauto.
  - unfold bind, lift, sleep, emit, ret. eauto.
Qed.

Lemma fetch_one_handler_raises (player : list cell) (all : list DataFrame)
  (t : trace) (e : exn) :
  outcome (row_get cols player key_label) = Raise e ->
  body player all t =
    (Raise (KeyError "full_name"),
     t ++ fetch_events (row_get cols player key_label) (List.length (sessions_created t))).
Proof.
  intros H. unfold body, fetch_one, try_except.
  unfold bind at 1. unfold lift at 1.
  rewrite (getitem_ok cols player key_label has_key).
  unfold bind at 1. rewrite fetch_run, H.
  unfold bind at 1. unfold lift at 1.
  now rewrite (getitem_absent cols player "full_name" no_name).
Qed.

(** Without the column the handler prints, the first fetch that raises
    ends the loop with a [KeyError]. *)
Lemma fetch_all_handler_raises (before after : list (list cell))
  (player : list cell) (e : exn) :
  (forall p, In p before -> is_ok (outcome (row_get cols p key_label)) = true) ->
  outcome (row_get cols player key_label) = Raise e ->
  forall t,
    fst (fetch_all what key_label tag_label fetch
           {| columns := cols; rows := before ++ player :: after |} t)
      = Raise (KeyError "full_name").
Proof.
  intros Hbefore Hplayer t. unfold fetch_all. cbn [rows columns]. fold body.
  assert (E : forall all t0,
             fst (for_each (before ++ player :: after) all body t0)
               = Raise (KeyError "full_name")).
  { induction before as [|p rest IH]; intros all t0.
    - cbn [app for_each]. unfold bind.
      now rewrite (fetch_one_handler_raises player all t0 e Hplayer).
    - cbn [app for_each]. unfold bind.
      pose proof (Hbefore p (or_introl eq_refl)) as Hp.
      destruct (outcome (row_get cols p key_label)) as [df|] eqn:Ep; [|discriminate Hp].
      destruct (fetch_one_returns p all t0 df Ep) as [all' [t' ->]].
      apply IH. intros q Hq. apply Hbefore. now right. }
  unfold bind. specialize (E [] t).
  destruct (for_each (before ++ player :: after) [] body t) as [[all|e'] t'];
    cbn [fst] in E; [discriminate E | injection E as ->; reflexivity].
Qed.

End LoopWithoutName.

(** X9.  On a roster that has the column [full_name] and no column [id],
    the stats loop and the awards loop never get to their fetch: every
    turn prints "Failed to fetch ... for player <name>: 'id'", nothing
    else happens, and the loop returns the table without columns. *)
Theorem loops_without_id_column
  (career_stats headline_stats : cell -> result DataFrame)
  (players_df : DataFrame) (t : trace) :
  ~ In "id"%string (columns players_df) ->
  In "full_name"%string (columns players_df) ->
  let name player := cell_str (row_get (columns players_df) player "full_name") in
  fetch_all_player_stats career_stats players_df t =
    (Ok empty_frame,
     t ++ map (fun player =>
                 EPrint ("Failed to fetch stats for player " ++ name player ++ ": 'id'"))
              (rows players_df)) /\
  fetch_all_player_awards headline_stats players_df t =
    (Ok empty_frame,
     t ++ map (fun player =>
                 EPrint ("Failed to fetch awards for player " ++ name player ++ ": 'id'"))
              (rows players_df)).
Proof.
  intros Hid Hname name. rewrite (frame_eta players_df) at 1 3. split.
  - exact (fetch_all_without_key "stats" "id" "player_id"
             (fetch_player_stats career_stats) (columns players_df) Hid Hname
             (rows players_df) t).
  - exact (fetch_all_without_key "awards" "id" "player_id"
             (fetch_player_awards headline_stats) (columns players_df) Hid Hname
             (rows players_df) t).
Qed.

Lemma loops_without_id_column_witness :
  ~ In "id"%string (columns Cases.roster_without_id) /\
  fetch_all_player_stats Scenario.career_stats Cases.roster_without_id [] =
    (Ok empty_frame,
     [EPrint "Failed to fetch stats for player A B: 'id'";
      EPrint "Failed to fetch stats for player C D: 'id'"]) /\
  fetch_all_player_awards Scenario.headline_stats_full Cases.roster_without_id [] =
    (Ok empty_frame,
     [EPrint "Failed to fetch awards for player A B: 'id'";
      EPrint "Failed to fetch awards for player C D: 'id'"]).
Proof.
  assert (Hid : ~ In "id"%string (columns Cases.roster_without_id)).
  { intros [H|[]]. discriminate H. }
  split; [exact Hid|].
  exact (loops_without_id_column Scenario.career_stats Scenario.headline_stats_full
           Cases.roster_without_id [] Hid (or_introl eq_refl)).
Defined.

(** X10.  On a roster that has the column [id] and no column [full_name],
    a fetch that raises is no longer skipped: the handler raises in its
    turn when it reads the name, and the stats loop and the awards loop
    end with [KeyError] for [full_name] at the first player whose fetch
    raises. *)
Theorem failure_without_name_column_is_fatal
  (career_stats headline_stats : cell -> result DataFrame)
  (players_df : DataFrame) (before after : list (list cell))
  (player : list cell) (t : trace) :
  In "id"%string (columns players_df) ->
  ~ In "full_name"%string (columns players_df) ->
  rows players_df = before ++ player :: after ->
  let id p := row_get (columns players_df) p "id" in
  ((forall p, In p before -> returns (fetch_player_stats career_stats (id p)) = true) ->
   forall e, fst (fetch_player_stats career_stats (id player) []) = Raise e ->
   fst (fetch_all_player_stats career_stats players_df t) = Raise (KeyError "full_name")) /\
  ((forall p, In p before -> returns (fetch_player_awards headline_stats (id p)) = true) ->
   forall e, fst (fetch_player_awards headline_stats (id player) []) = Raise e ->
   fst (fetch_all_player_awards headline_stats players_df t) = Raise (KeyError "full_name")).
Proof.
  intros Hid Hname Hrows id.
  split; intros Hbefore e He.
  - pose proof (fetch_all_handler_raises "stats" "id" "player_id"
                  (fetch_player_stats career_stats) career_stats silent
                  (columns players_df)
                  (fetch_player_stats_run career_stats) Hid Hname
                  before after player e Hbefore He t) as H.
    rewrite <- Hrows, <- frame_eta in H. exact H.
  - pose proof (fetch_all_handler_raises "awards" "id" "player_id"
                  (fetch_player_awards headline_stats) headline_stats silent
                  (columns players_df)
                  (fetch_player_awards_run headline_stats) Hid Hname
                  before after player e Hbefore He t) as H.
    rewrite <- Hrows, <- frame_eta in H. exact H.
Qed.

Lemma failure_without_name_column_is_fatal_witness :
  fst (fetch_all_player_stats Scenario.career_stats_down Cases.roster_without_name [])
    = Raise (KeyError "full_name") /\
  fst (fetch_all_player_awards Scenario.headline_stats_down Cases.roster_without_name [])
    = Raise (KeyError "full_name").
Proof.
  assert (Hname : ~ In "full_name"%string (columns Cases.roster_without_name)).
  { intros [H|[]]. discriminate H. }
  destruct (failure_without_name_column_is_fatal
              Scenario.career_stats_down Scenario.headline_stats_down
              Cases.roster_without_name [[Some (VInt 1)]] [] [Some (VInt 2)] []
              (or_introl eq_refl) Hname eq_refl) as [Hs Ha].
  split.
  - apply (Hs) with (e := Failure "Read timed out."); [|reflexivity].
    intros p [<-|[]]. reflexivity.
  - apply (Ha) with (e := Failure "Read timed out."); [|reflexivity].
    intros p [<-|[]]. reflexivity.
Defined.

(** X11.  On a roster that is not empty and has no column [full_name],
    the salary loop ends at once with [KeyError] for [full_name]: the
    look-up fails in the body and again in the handler, before any
    session is created or request sent. *)
Theorem salary_loop_without_name_column
  (page_at : string -> result (list node)) (players_df : DataFrame) (t : trace) :
  rows players_df <> [] ->
  ~ In "full_name"%string (columns players_df) ->
  fetch_all_player_salaries page_at players_df t = (Raise (KeyError "full_name"), t).
Proof.
  intros Hrows Hname.
  destruct players_df as [cols players]. cbn [rows columns] in *.
  destruct players as [|player rest]; [congruence|].
  unfold fetch_all_player_salaries, fetch_all. cbn [rows columns for_each].
  unfold bind at 1. unfold bind at 1.
  unfold fetch_one at 1. unfold try_except.
  unfold bind at 1. unfold lift at 1.
  rewrite (getitem_absent cols player "full_name" Hname).
  reflexivity.
Qed.

Lemma salary_loop_without_name_column_witness :
  fetch_all_player_salaries Scenario.page_at Cases.roster_without_name []
    = (Raise (KeyError "full_name"), []).
Proof.
  apply salary_loop_without_name_column.
  - discriminate.
  - intros [H|[]]. discriminate H.
Defined.

(* ------------------------------------------------------------------ *)
(** * What the loops keep of the fetched tables *)
(* ------------------------------------------------------------------ *)

Lemma reindexed_rows_length (cols : list string) (all : list DataFrame) :
  List.length (flat_map (fun f => map (reindex (columns f) cols) (rows f)) all)
    = list_sum (map (fun f => List.length (rows f)) all).
Proof.
  induction all as [|f rest IH]; [reflexivity|].
  cbn [flat_map map list_sum]. now rewrite length_app, length_map, IH.
Qed.

Lemma collected_rows_length (all : list DataFrame) :
  List.length (rows (collected all))
    = list_sum (map (fun f => List.length (rows f)) all).
Proof.
  destruct all as [|f0 t]; [reflexivity|].
  apply (reindexed_rows_length (all_labels (f0 :: t)) (f0 :: t)).
Qed.

Lemma set_column_rows_length (c : string) (v : cell) (df : DataFrame) :
  List.length (rows (set_column c v df)) = List.length (rows df).
Proof. unfold set_column. cbn [rows]. apply length_map. Qed.

(** A row of a table keeps, after the assignment of a column, its cells
    under the other labels. *)
Lemma set_column_keeps (c : string) (v : cell) (df : DataFrame) (r : list cell) :
  In r (rows df) ->
  exists r',
    In r' (rows (set_column c v df)) /\
    forall c', In c' (columns df) -> c' <> c ->
      row_get (columns (set_column c v df)) r' c' = row_get (columns df) r c'.
Proof.
  intros Hr. unfold set_column. cbn [rows columns].
  set (cols' := if mem c (columns df) then columns df else columns df ++ [c]).
  eexists. split; [apply in_map; exact Hr|].
  intros c' Hc' Hneq.
  assert (Hin : In c' cols').
  { unfold cols'. destruct (mem c (columns df)); [assumption|].
    apply in_or_app. now left. }
  rewrite row_get_map by exact Hin.
  replace (String.eqb c' c) with false; [reflexivity|].
  symmetry. now apply String.eqb_neq.
Qed.

(** A row of one of the tables is, laid out under the labels of the
    collected table, a row of the collected table. *)
Lemma collected_has_row (all : list DataFrame) (f : DataFrame) (r : list cell) :
  In f all -> In r (rows f) ->
  exists row,
    In row (rows (collected all)) /\
    forall c, In c (columns f) ->
      row_get (columns (collected all)) row c = row_get (columns f) r c.
Proof.
  intros Hf Hr. destruct all as [|f0 t]; [destruct Hf|].
  set (all := f0 :: t) in *. cbn [collected rows columns]. fold all.
  exists (reindex (columns f) (all_labels all) r). split.
  - apply in_flat_map. exists f. split; [exact Hf|]. now apply in_map.
  - intros c Hc. unfold reindex. apply row_get_map.
    now apply (all_labels_In all f).
Qed.

Section LoopKeeps.

Variables what key_label tag_label : string.
Variable outcome : cell -> result DataFrame.
Variable fetch_events : cell -> nat -> list event.
Variable cols : list string.

Let key (player : list cell) : cell := row_get cols player key_label.
Let gives := contribution key_label tag_label outcome cols.

Lemma gives_rows_length (players : list (list cell)) :
  List.length (rows (collected (flat_map gives players)))
    = list_sum (map (fun player =>
                       match outcome (key player) with
                       | Ok df => if empty df then 0 else List.length (rows df)
                       | Raise _ => 0
                       end) players).
Proof.
  rewrite collected_rows_length.
  induction players as [|p rest IH]; [reflexivity|].
  cbn [flat_map map list_sum]. rewrite map_app, list_sum_app, IH. f_equal.
  unfold gives, contribution. fold (key p).
  destruct (outcome (key p)) as [df|]; [|reflexivity].
  destruct (empty df); [reflexivity|].
  unfold list_sum. cbn [map fold_right]. rewrite set_column_rows_length. lia.
Qed.

Lemma gives_hands_over (players : list (list cell)) (player : list cell)
  (df : DataFrame) :
  In player players ->
  outcome (key player) = Ok df ->
  empty df = false ->
  hands_over (Ok (collected (flat_map gives players))) tag_label (key player) df.
Proof.
  intros Hin Hout Hempty. eexists. split; [reflexivity|]. intros r Hr.
  destruct (set_column_keeps tag_label (key player) df r Hr) as [r' [Hr' Hkeep]].
  assert (Hf : In (set_column tag_label (key player) df) (flat_map gives players)).
  { apply in_flat_map. exists player. split; [exact Hin|].
    unfold gives, contribution. fold (key player). rewrite Hout, Hempty. now left. }
  destruct (collected_has_row _ _ r' Hf Hr') as [row [Hrow Hget]].
  exists row. split; [exact Hrow|]. split.
  - rewrite (Hget tag_label (set_column_has _ _ _)). now apply set_column_get.
  - intros c Hc Hneq. rewrite <- (Hkeep c Hc Hneq). apply Hget.
    unfold set_column. cbn [columns].
    destruct (mem tag_label (columns df)); [assumption|].
    apply in_or_app. now left.
Qed.

(** A loop whose fetch does nothing to the outside only sleeps and
    prints. *)
Lemma events_sleep_or_print (players : list (list cell)) :
  (forall k n, fetch_events k n = []) ->
  forall n,
    Forall sleep_or_print
      (loop_events what key_label outcome fetch_events cols players n).
Proof.
  intros Hsilent. induction players as [|p rest IH]; intros n; [constructor|].
  cbn [loop_events]. apply Forall_app. split; [|apply IH].
  unfold step_events. rewrite Hsilent. cbn [app].
  destruct (outcome _) as [df|e].
  - apply Forall_cons; [now left | apply Forall_nil].
  - apply Forall_cons; [right; eauto | apply Forall_nil].
Qed.

End LoopKeeps.

(** X12.  For a roster with the columns [id] and [full_name], the table a
    loop returns has as many rows as its fetches handed over: the sum,
    over the players, of the rows of the fetched table, counting nothing
    for a fetch that raises or returns an empty table.  No row is lost
    and none is repeated. *)
Theorem loops_keep_the_number_of_rows
  (career_stats headline_stats : cell -> result DataFrame)
  (page_at : string -> result (list node))
  (players_df : DataFrame) (t : trace) :
  In "id"%string (columns players_df) ->
  In "full_name"%string (columns players_df) ->
  let cols := columns players_df in
  (exists stats_df,
     fst (fetch_all_player_stats career_stats players_df t) = Ok stats_df /\
     List.length (rows stats_df)
       = list_sum (map (fun player =>
                          rows_fetched (fetch_player_stats career_stats)
                            (row_get cols player "id"))
                       (rows players_df))) /\
  (exists awards_df,
     fst (fetch_all_player_awards headline_stats players_df t) = Ok awards_df /\
     List.length (rows awards_df)
       = list_sum (map (fun player =>
                          rows_fetched (fetch_player_awards headline_stats)
                            (row_get cols player "id"))
                       (rows players_df))) /\
  (exists salaries_df,
     fst (fetch_all_player_salaries page_at players_df t) = Ok salaries_df /\
     List.length (rows salaries_df)
       = list_sum (map (fun player =>
                          rows_fetched (fetch_player_salaries page_at)
                            (row_get cols player "full_name"))
                       (rows players_df))).
Proof.
  intros Hid Hname cols.
  pose proof (fetch_all_player_stats_run career_stats players_df Hid Hname
                (rows players_df) t) as Hs.
  pose proof (fetch_all_player_awards_run headline_stats players_df Hid Hname
                (rows players_df) t) as Ha.
  pose proof (fetch_all_player_salaries_run page_at players_df Hname
                (rows players_df) t) as Hp.
  rewrite <- (frame_eta players_df) in Hs, Ha, Hp.
  rewrite Hs, Ha, Hp. cbn [fst]. fold cols.
  split; [|split]; eexists; (split; [reflexivity|]).
  - apply gives_rows_length.
  - apply gives_rows_length.
  - rewrite gives_rows_length. f_equal. apply map_ext. intros player.
    unfold rows_fetched. now rewrite fetch_player_salaries_run.
Qed.

Lemma loops_keep_the_number_of_rows_witness :
  (exists stats_df,
     fst (fetch_all_player_stats Cases.career_stats_all Scenario.roster []) = Ok stats_df /\
     List.length (rows stats_df) = 2) /\
  (exists awards_df,
     fst (fetch_all_player_awards Scenario.headline_stats_down Scenario.roster [])
       = Ok awards_df /\
     List.length (rows awards_df) = 1) /\
  (exists salaries_df,
     fst (fetch_all_player_salaries Cases.site_two_rows Scenario.roster [])
       = Ok salaries_df /\
     List.length (rows salaries_df) = 4).
Proof.
  exact (loops_keep_the_number_of_rows Cases.career_stats_all
           Scenario.headline_stats_down Cases.site_two_rows Scenario.roster []
           (or_introl eq_refl) (or_intror (or_introl eq_refl))).
Defined.

(** X13.  For a roster with the columns [id] and [full_name] and any of
    its players: when the fetch for the player returns a table that is
    not empty, every row of that table is in the table the loop returns,
    with the player's key under the tag label ([player_id], [full_name])
    and its own cells under its other labels. *)
Theorem loops_keep_the_fetched_cells
  (career_stats headline_stats : cell -> result DataFrame)
  (page_at : string -> result (list node))
  (players_df : DataFrame) (player : list cell) (t : trace) :
  In "id"%string (columns players_df) ->
  In "full_name"%string (columns players_df) ->
  In player (rows players_df) ->
  let id := row_get (columns players_df) player "id" in
  let name := row_get (columns players_df) player "full_name" in
  (forall df,
     fst (fetch_player_stats career_stats id []) = Ok df -> empty df = false ->
     hands_over (fst (fetch_all_player_stats career_stats players_df t))
       "player_id" id df) /\
  (forall df,
     fst (fetch_player_awards headline_stats id []) = Ok df -> empty df = false ->
     hands_over (fst (fetch_all_player_awards headline_stats players_df t))
       "player_id" id df) /\
  (forall df,
     fst (fetch_player_salaries page_at name []) = Ok df -> empty df = false ->
     hands_over (fst (fetch_all_player_salaries page_at players_df t))
       "full_name" name df).
Proof.
  intros Hid Hname Hin id name.
  pose proof (fetch_all_player_stats_run career_stats players_df Hid Hname
                (rows players_df) t) as Hs.
  pose proof (fetch_all_player_awards_run headline_stats players_df Hid Hname
                (rows players_df) t) as Ha.
  pose proof (fetch_all_player_salaries_run page_at players_df Hname
                (rows players_df) t) as Hp.
  rewrite <- (frame_eta players_df) in Hs, Ha, Hp.
  rewrite Hs, Ha, Hp. cbn [fst].
  split; [|split]; intros df Hdf Hempty.
  - exact (gives_hands_over "id" "player_id" career_stats (columns players_df)
             (rows players_df) player df Hin Hdf Hempty).
  - exact (gives_hands_over "id" "player_id" headline_stats (columns players_df)
             (rows players_df) player df Hin Hdf Hempty).
  - rewrite fetch_player_salaries_run in Hdf.
    exact (gives_hands_over "full_name" "full_name" (salaries_outcome page_at)
             (columns players_df) (rows players_df) player df Hin Hdf Hempty).
Qed.

Lemma loops_keep_the_fetched_cells_witness :
  hands_over (fst (fetch_all_player_stats Scenario.career_stats Scenario.roster []))
    "player_id" (Some (VInt 1))
    {| columns := Scenario.stats_labels;
       rows := [[Some (VInt 1); Some (VStr "2021-22"); Some (VInt 900)]] |} /\
  hands_over (fst (fetch_all_player_salaries Scenario.page_at Scenario.roster []))
    "full_name" (Some (VStr "C D"))
    {| columns := ["season"; "salary"]%string;
       rows := [[Some (VStr "2021-22"); Some (VStr "1234567")]] |}.
Proof.
  split.
  - exact (proj1 (loops_keep_the_fetched_cells Scenario.career_stats
                    Scenario.headline_stats Scenario.page_at Scenario.roster
                    Scenario.player_ab []
                    (or_introl eq_refl) (or_intror (or_introl eq_refl))
                    (or_introl eq_refl))
             _ eq_refl eq_refl).
  - exact (proj2 (proj2 (loops_keep_the_fetched_cells Scenario.career_stats
                    Scenario.headline_stats Scenario.page_at Scenario.roster
                    Scenario.player_cd []
                    (or_introl eq_refl) (or_intror (or_introl eq_refl))
                    (or_intror (or_introl eq_refl))))
             _ eq_refl eq_refl).
Defined.

(** X14.  For a roster with the columns [id] and [full_name], all that the
    stats loop and the awards loop do to the outside is to sleep one
    second and to print: they create no session, send no request and
    write no file. *)
Theorem api_loops_only_sleep_and_print
  (career_stats headline_stats : cell -> result DataFrame)
  (players_df : DataFrame) (t : trace) :
  In "id"%string (columns players_df) ->
  In "full_name"%string (columns players_df) ->
  (exists events,
     snd (fetch_all_player_stats career_stats players_df t) = t ++ events /\
     Forall sleep_or_print events) /\
  (exists events,
     snd (fetch_all_player_awards headline_stats players_df t) = t ++ events /\
     Forall sleep_or_print events).
Proof.
  intros Hid Hname.
  pose proof (fetch_all_player_stats_run career_stats players_df Hid Hname
                (rows players_df) t) as Hs.
  pose proof (fetch_all_player_awards_run headline_stats players_df Hid Hname
                (rows players_df) t) as Ha.
  rewrite <- (frame_eta players_df) in Hs, Ha.
  rewrite Hs, Ha. cbn [snd].
  split; eexists; (split; [reflexivity|]); now apply events_sleep_or_print.
Qed.

Lemma api_loops_only_sleep_and_print_witness :
  (exists events,
     snd (fetch_all_player_stats Scenario.career_stats_down Scenario.roster [])
       = [] ++ events /\
     Forall sleep_or_print events) /\
  (exists events,
     snd (fetch_all_player_awards Scenario.headline_stats_down Scenario.roster [])
       = [] ++ events /\
     Forall sleep_or_print events).
Proof.
  exact (api_loops_only_sleep_and_print Scenario.career_stats_down
           Scenario.headline_stats_down Scenario.roster []
           (or_introl eq_refl) (or_intror (or_introl eq_refl))).
Defined.

(* ------------------------------------------------------------------ *)
(** * More about the join *)
(* ------------------------------------------------------------------ *)







(** No label with a suffix of the join is the label [player_id]. *)
Lemma suffix_x_is_not_player_id (c : string) :
  (c ++ "_x")%string <> "player_id"%string.
Proof.
  intros H.
  do 9 (destruct c as [|? c]; cbn in H; [discriminate H | injection H as _ H]).
  destruct c; discriminate H.
Qed.

Lemma suffix_y_is_not_player_id (c : string) :
  (c ++ "_y")%string <> "player_id"%string.
Proof.
  intros H.
  do 9 (destruct c as [|? c]; cbn in H; [discriminate H | injection H as _ H]).
  destruct c; discriminate H.
Qed.

(** The three joins one after the other, when their labels are settled. *)
Lemma merge_data_ok
  (players_df stats_df awards_df salaries_df : DataFrame) (labels : list string) :
  merge_data_labels (columns players_df) (columns stats_df)
    (columns awards_df) (columns salaries_df) = Ok labels ->
  exists m1 m2,
    merge players_df stats_df "id" "player_id" = Ok m1 /\
    rows m1 = merge_rows players_df stats_df "id" "player_id" /\
    merge m1 awards_df "player_id" "player_id" = Ok m2 /\
    rows m2 = merge_rows m1 awards_df "player_id" "player_id" /\
    merge m2 salaries_df "full_name" "full_name"
      = Ok {| columns := labels;
              rows := merge_rows m2 salaries_df "full_name" "full_name" |} /\
    merge_data players_df stats_df awards_df salaries_df
      = Ok {| columns := labels;
              rows := merge_rows m2 salaries_df "full_name" "full_name" |}.
Proof.
  intros H. unfold merge_data_labels in H.
  destruct (merge_labels (columns players_df) (columns stats_df) "id" "player_id")
    as [c1|] eqn:E1; [|discriminate H].
  destruct (merge_labels c1 (columns awards_df) "player_id" "player_id")
    as [c2|] eqn:E2; [|discriminate H].
  set (m1 := {| columns := c1;
                rows := merge_rows players_df stats_df "id" "player_id" |}).
  set (m2 := {| columns := c2;
                rows := merge_rows m1 awards_df "player_id" "player_id" |}).
  exists m1, m2. unfold merge_data.
  rewrite (merge_ok players_df stats_df "id" "player_id" c1 E1). fold m1.
  rewrite (merge_ok m1 awards_df "player_id" "player_id" c2 E2). fold m2.
  rewrite (merge_ok m2 salaries_df "full_name" "full_name" labels H).
  repeat split.
Qed.



(** X16.  Whenever the three joins settle their labels and the stats,
    awards and salary tables have no row, [merge_data] returns the roster
    with every row filled up with nulls: one row per player, in roster
    order. *)
Theorem merge_data_with_rowless_tables
  (players_df stats_df awards_df salaries_df : DataFrame) (labels : list string) :
  merge_data_labels (columns players_df) (columns stats_df)
    (columns awards_df) (columns salaries_df) = Ok labels ->
  rows stats_df = [] -> rows awards_df = [] -> rows salaries_df = [] ->
  merge_data players_df stats_df awards_df salaries_df
    = Ok {| columns := labels;
            rows := map (fun player =>
                           ((player ++ nulls "id" "player_id" stats_df)
                              ++ nulls "player_id" "player_id" awards_df)
                             ++ nulls "full_name" "full_name" salaries_df)
                        (rows players_df) |}.
Proof.
  intros H Hs Ha Hp.
  destruct (merge_data_ok _ _ _ _ _ H) as [m1 [m2 [_ [R1 [_ [R2 [_ ->]]]]]]].
  do 2 f_equal.
  rewrite (merge_rows_no_right_rows m2 salaries_df _ _ Hp), R2.
  rewrite (merge_rows_no_right_rows m1 awards_df _ _ Ha), R1.
  rewrite (merge_rows_no_right_rows players_df stats_df _ _ Hs).
  now rewrite !map_map.
Qed.

Lemma merge_data_with_rowless_tables_witness :
  merge_data Scenario.roster Cases.stats_no_rows Scenario.awards_no_rows
    Cases.salaries_no_rows
    = Ok {| columns := ["id"; "full_name"; "PLAYER_ID_x"; "SEASON_ID"; "PTS_x";
                        "player_id"; "PLAYER_ID_y"; "PLAYER_NAME"; "PTS_y";
                        "season"; "salary"]%string;
            rows := [Scenario.player_ab ++ repeat None 9;
                     Scenario.player_cd ++ repeat None 9] |}.
Proof.
  exact (merge_data_with_rowless_tables Scenario.roster Cases.stats_no_rows
           Scenario.awards_no_rows Cases.salaries_no_rows _ eq_refl
           eq_refl eq_refl eq_refl).
Defined.






Lemma label_count_one_lookup (key : string) (cols : list string) :
  label_count key cols = 1 -> key_lookup key cols = Ok tt.
Proof. intros H. unfold key_lookup. now rewrite H. Qed.

(** After a join in which both tables have the label [player_id] and it
    is not the key of both, no label of the result is [player_id]. *)
Lemma player_id_is_renamed (lcols rcols labels : list string) :
  In "player_id"%string lcols ->
  In "player_id"%string rcols ->
  merge_labels lcols rcols "id" "player_id" = Ok labels ->
  ~ In "player_id"%string labels.
Proof.
  intros Hl Hr H. unfold merge_labels in H.
  destruct (key_lookup "player_id" rcols); [|discriminate H].
  destruct (key_lookup "id" lcols); [|discriminate H].
  change (right_kept "id" "player_id" rcols rcols) with rcols in H.
  set (overlap := filter (fun c => mem c rcols) lcols) in H.
  destruct (_ ++ _); [|discriminate H].
  injection H as <-.
  assert (Ho : mem "player_id" overlap = true).
  { apply mem_In. unfold overlap. apply filter_In. split; [exact Hl|].
    now apply mem_In. }
  intros Hin. apply in_app_or in Hin as [Hin|Hin];
    apply in_map_iff in Hin as [c [Hc _]]; unfold suffixed in Hc;
    destruct (mem c overlap) eqn:E.
  - exact (suffix_x_is_not_player_id c Hc).
  - subst c. rewrite Ho in E. discriminate E.
  - exact (suffix_y_is_not_player_id c Hc).
  - subst c. rewrite Ho in E. discriminate E.
Qed.

(** X19.  A roster that has a column [player_id] of its own breaks the
    awards join: the first join gives that column and the [player_id] of
    the stats table the suffixes [_x] and [_y], so that the second join,
    on [player_id], raises [KeyError]. *)
Theorem roster_with_player_id_column_breaks_merge_data
  (players_df stats_df awards_df salaries_df : DataFrame) (c1 : list string) :
  In "player_id"%string (columns players_df) ->
  In "player_id"%string (columns stats_df) ->
  merge_labels (columns players_df) (columns stats_df) "id" "player_id" = Ok c1 ->
  label_count "player_id" (columns awards_df) = 1 ->
  merge_data players_df stats_df awards_df salaries_df = Raise (KeyError "player_id").
Proof.
  intros Hp Hs E1 Ka. unfold merge_data.
  rewrite (merge_ok players_df stats_df "id" "player_id" c1 E1).
  rewrite (merge_raises
             {| columns := c1;
                rows := merge_rows players_df stats_df "id" "player_id" |}
             awards_df "player_id" "player_id" (KeyError "player_id"));
    [reflexivity|].
  cbn [columns]. unfold merge_labels.
  rewrite (label_count_one_lookup _ _ Ka).
  unfold key_lookup.
  now rewrite (label_count_absent _ _ (player_id_is_renamed _ _ _ Hp Hs E1)).
Qed.

Lemma roster_with_player_id_column_breaks_merge_data_witness :
  merge_labels (columns Cases.roster_with_player_id) (columns Scenario.stats_table)
    "id" "player_id"
    = Ok ["id"; "full_name"; "player_id_x"; "PLAYER_ID"; "SEASON_ID"; "PTS";
          "player_id_y"]%string /\
  merge_data Cases.roster_with_player_id Scenario.stats_table
    Scenario.awards_table Scenario.salaries_table = Raise (KeyError "player_id").
Proof.
  split; [reflexivity|].
  apply (roster_with_player_id_column_breaks_merge_data Cases.roster_with_player_id
           Scenario.stats_table Scenario.awards_table Scenario.salaries_table
           ["id"; "full_name"; "player_id_x"; "PLAYER_ID"; "SEASON_ID"; "PTS";
            "player_id_y"]%string).
  - right. right. left. reflexivity.
  - right. right. right. left. reflexivity.
  - reflexivity.
  - reflexivity.
Defined.

(* ------------------------------------------------------------------ *)
(** * A run of the whole program *)
(* ------------------------------------------------------------------ *)

Lemma csv_writes_app (a b : trace) : csv_writes (a ++ b) = csv_writes a ++ csv_writes b.
Proof. apply flat_map_app. Qed.

Lemma salaries_events_csv (page_at : string -> result (list node))
  (k : cell) (n : nat) :
  csv_writes (salaries_events page_at k n) = [].
Proof.
  unfold salaries_events. cbn [csv_writes flat_map app].
  destruct (as_text k) as [name|]; [|reflexivity].
  cbn [flat_map app]. destruct (page_at _) as [soup|]; [|reflexivity].
  destruct (table_not_found soup); reflexivity.
Qed.

Lemma events_csv (what key_label : string) (outcome : cell -> result DataFrame)
  (fetch_events : cell -> nat -> list event) (cols : list string)
  (players : list (list cell)) :
  (forall k n, csv_writes (fetch_events k n) = []) ->
  forall n,
    csv_writes (loop_events what key_label outcome fetch_events cols players n) = [].
Proof.
  intros Hnone. induction players as [|p rest IH]; intros n; [reflexivity|].
  cbn [loop_events]. rewrite csv_writes_app, IH, app_nil_r.
  unfold step_events. rewrite csv_writes_app, Hnone.
  destruct (outcome _); reflexivity.
Qed.

Section MainFacts.

Variables career_stats headline_stats : cell -> result DataFrame.
Variable page_at : string -> result (list node).
Variable players_df : DataFrame.

Hypothesis has_id : In "id"%string (columns players_df).
Hypothesis has_name : In "full_name"%string (columns players_df).

Let stats_run := fetch_all_player_stats_run career_stats players_df has_id has_name
                   (rows players_df).
Let awards_run := fetch_all_player_awards_run headline_stats players_df has_id has_name
                    (rows players_df).
Let salaries_run := fetch_all_player_salaries_run page_at players_df has_name
                      (rows players_df).

(** The table a loop returns does not depend on the trace it starts
    from. *)
Lemma loops_from_any_trace (t : trace) :
  fst (fetch_all_player_stats career_stats players_df t)
    = fst (fetch_all_player_stats career_stats players_df []) /\
  fst (fetch_all_player_awards headline_stats players_df t)
    = fst (fetch_all_player_awards headline_stats players_df []) /\
  fst (fetch_all_player_salaries page_at players_df t)
    = fst (fetch_all_player_salaries page_at players_df []).
Proof.
  pose proof (stats_run t) as Hs. pose proof (stats_run []) as Hs0.
  pose proof (awards_run t) as Ha. pose proof (awards_run []) as Ha0.
  pose proof (salaries_run t) as Hp. pose proof (salaries_run []) as Hp0.
  rewrite <- (frame_eta players_df) in Hs, Hs0, Ha, Ha0, Hp, Hp0.
  now rewrite Hs, Hs0, Ha, Ha0, Hp, Hp0.
Qed.

Lemma loops_write_no_file (t : trace) :
  csv_writes (snd (fetch_all_player_stats career_stats players_df t)) = csv_writes t /\
  csv_writes (snd (fetch_all_player_awards headline_stats players_df t)) = csv_writes t /\
  csv_writes (snd (fetch_all_player_salaries page_at players_df t)) = csv_writes t.
Proof.
  pose proof (stats_run t) as Hs. pose proof (awards_run t) as Ha.
  pose proof (salaries_run t) as Hp.
  rewrite <- (frame_eta players_df) in Hs, Ha, Hp.
  rewrite Hs, Ha, Hp. cbn [snd]. rewrite !csv_writes_app.
  rewrite !events_csv by (reflexivity || apply salaries_events_csv).
  now rewrite app_nil_r.
Qed.

Lemma loops_sleep (t : trace) :
  sleeps (snd (fetch_all_player_stats career_stats players_df t))
    = sleeps t ++ loop_sleeps (fetch_player_stats career_stats) players_df "id" /\
  sleeps (snd (fetch_all_player_awards headline_stats players_df t))
    = sleeps t ++ loop_sleeps (fetch_player_awards headline_stats) players_df "id" /\
  sleeps (snd (fetch_all_player_salaries page_at players_df t))
    = sleeps t ++ loop_sleeps (fetch_player_salaries page_at) players_df "full_name".
Proof.
  pose proof (stats_run t) as Hs. pose proof (awards_run t) as Ha.
  pose proof (salaries_run t) as Hp.
  rewrite <- (frame_eta players_df) in Hs, Ha, Hp.
  rewrite Hs, Ha, Hp. cbn [snd]. rewrite !sleeps_app. unfold loop_sleeps.
  split; [|split]; f_equal.
  - now rewrite events_sleeps by reflexivity.
  - now rewrite events_sleeps by reflexivity.
  - rewrite events_sleeps by apply salaries_events_sleeps.
    apply flat_map_ext. intros player. unfold returns.
    now rewrite fetch_player_salaries_run.
Qed.

Variables stats_df awards_df salaries_df : DataFrame.

Hypothesis stats_value :
  fst (fetch_all_player_stats career_stats players_df []) = Ok stats_df.
Hypothesis awards_value :
  fst (fetch_all_player_awards headline_stats players_df []) = Ok awards_df.
Hypothesis salaries_value :
  fst (fetch_all_player_salaries page_at players_df []) = Ok salaries_df.

(** A run of [main] with a roster: the three loops, the join, and the
    writing of the file when the join returns. *)
Lemma main_run (t : trace) :
  main (Ok players_df) career_stats headline_stats page_at t =
    let before :=
      trace_before_merge career_stats headline_stats page_at players_df t in
    match merge_data players_df stats_df awards_df salaries_df with
    | Ok merged_df =>
        (Ok tt,
         before ++ [EPrint "Saving data to CSV...";
                    EToCsv "nba_active_players_dataset.csv" merged_df;
                    EPrint "Data collection complete."])
    | Raise e => (Raise e, before)
    end.
Proof.
  assert (Es : forall t0, fetch_all_player_stats career_stats players_df t0
                 = (Ok stats_df, snd (fetch_all_player_stats career_stats players_df t0))).
  { intros t0. rewrite (surjective_pairing (fetch_all_player_stats _ _ t0)) at 1.
    f_equal. rewrite (proj1 (loops_from_any_trace t0)). exact stats_value. }
  assert (Ea : forall t0, fetch_all_player_awards headline_stats players_df t0
                 = (Ok awards_df, snd (fetch_all_player_awards headline_stats players_df t0))).
  { intros t0. rewrite (surjective_pairing (fetch_all_player_awards _ _ t0)) at 1.
    f_equal. rewrite (proj1 (proj2 (loops_from_any_trace t0))). exact awards_value. }
  assert (Ep : forall t0, fetch_all_player_salaries page_at players_df t0
                 = (Ok salaries_df, snd (fetch_all_player_salaries page_at players_df t0))).
  { intros t0. rewrite (surjective_pairing (fetch_all_player_salaries _ _ t0)) at 1.
    f_equal. rewrite (proj2 (proj2 (loops_from_any_trace t0))). exact salaries_value. }
  unfold main, trace_before_merge, fetch_active_players, save_data, print.
  unfold bind, emit, lift. rewrite Es, Ea, Ep.
  destruct (merge_data players_df stats_df awards_df salaries_df) as [merged_df|e];
    cbn zeta; [|reflexivity].
  now rewrite <- !app_assoc.
Qed.

End MainFacts.

(** X20.  A run of [main] on a roster with the columns [id] and
    [full_name]: no file is written before the join; when [merge_data]
    returns a table for the roster and the tables of the three loops,
    [main] prints that it saves, writes that table, once, to
    [nba_active_players_dataset.csv], prints that it is done and returns;
    when [merge_data] raises, [main] ends with that exception and has
    written nothing. *)
Theorem main_writes_what_merge_data_returns
  (career_stats headline_stats : cell -> result DataFrame)
  (page_at : string -> result (list node))
  (players_df stats_df awards_df salaries_df : DataFrame) (t : trace) :
  In "id"%string (columns players_df) ->
  In "full_name"%string (columns players_df) ->
  fst (fetch_all_player_stats career_stats players_df []) = Ok stats_df ->
  fst (fetch_all_player_awards headline_stats players_df []) = Ok awards_df ->
  fst (fetch_all_player_salaries page_at players_df []) = Ok salaries_df ->
  let before := trace_before_merge career_stats headline_stats page_at players_df t in
  csv_writes before = csv_writes t /\
  main (Ok players_df) career_stats headline_stats page_at t =
    match merge_data players_df stats_df awards_df salaries_df with
    | Ok merged_df =>
        (Ok tt,
         before ++ [EPrint "Saving data to CSV...";
                    EToCsv "nba_active_players_dataset.csv" merged_df;
                    EPrint "Data collection complete."])
    | Raise e => (Raise e, before)
    end.
Proof.
  intros Hid Hname Hs Ha Hp before. split.
  - unfold before, trace_before_merge. rewrite !csv_writes_app.
    rewrite (proj2 (proj2 (loops_write_no_file career_stats headline_stats page_at
                             players_df Hid Hname _))).
    rewrite !csv_writes_app.
    rewrite (proj1 (proj2 (loops_write_no_file career_stats headline_stats page_at
                             players_df Hid Hname _))).
    rewrite !csv_writes_app.
    rewrite (proj1 (loops_write_no_file career_stats headline_stats page_at
                      players_df Hid Hname _)).
    rewrite !csv_writes_app. cbn. now rewrite !app_nil_r.
  - exact (main_run career_stats headline_stats page_at players_df Hid Hname
             stats_df awards_df salaries_df Hs Ha Hp t).
Qed.

Lemma main_writes_what_merge_data_returns_witness :
  (exists merged_df,
     main (Ok Scenario.roster) Scenario.career_stats Scenario.headline_stats_full
       Scenario.page_at []
     = (Ok tt,
        trace_before_merge Scenario.career_stats Scenario.headline_stats_full
          Scenario.page_at Scenario.roster []
          ++ [EPrint "Saving data to CSV...";
              EToCsv "nba_active_players_dataset.csv" merged_df;
              EPrint "Data collection complete."])) /\
  main (Ok Scenario.roster) Scenario.career_stats Scenario.headline_stats
    Scenario.page_at []
  = (Raise (KeyError "player_id"),
     trace_before_merge Scenario.career_stats Scenario.headline_stats
       Scenario.page_at Scenario.roster []).
Proof.
  split.
  - destruct (main_writes_what_merge_data_returns
                Scenario.career_stats Scenario.headline_stats_full Scenario.page_at
                Scenario.roster _ _ _ []
                (or_introl eq_refl) (or_intror (or_introl eq_refl))
                eq_refl eq_refl eq_refl) as [_ H].
    rewrite H. eexists. reflexivity.
  - destruct (main_writes_what_merge_data_returns
                Scenario.career_stats Scenario.headline_stats Scenario.page_at
                Scenario.roster _ _ _ []
                (or_introl eq_refl) (or_intror (or_introl eq_refl))
                eq_refl eq_refl eq_refl) as [_ H].
    rewrite H. reflexivity.
Defined.

(** X21.  When the roster cannot be fetched, [main] ends with the
    exception of the roster fetch right after its first message: no
    loop runs, nothing is joined and no file is written. *)
Theorem roster_failure_is_fatal
  (career_stats headline_stats : cell -> result DataFrame)
  (page_at : string -> result (list node))
  (active_players : result DataFrame) (e : exn) (t : trace) :
  active_players = Raise e ->
  main active_players career_stats headline_stats page_at t
    = (Raise e, t ++ [EPrint "Fetching active players..."]).
Proof. intros ->. reflexivity. Qed.

Lemma roster_failure_is_fatal_witness :
  main (Raise (Failure "Read timed out.")) Scenario.career_stats
    Scenario.headline_stats Scenario.page_at []
  = (Raise (Failure "Read timed out."), [EPrint "Fetching active players..."]).
Proof.
  exact (roster_failure_is_fatal Scenario.career_stats Scenario.headline_stats
           Scenario.page_at _ (Failure "Read timed out.") [] eq_refl).
Defined.

(** X22.  A run of [main] on a roster with the columns [id] and
    [full_name] sleeps one second for each fetch that returns, first those
    of the stats loop, then those of the awards loop, then those of the
    salary loop, whether the join at the end succeeds or not: three
    seconds per player when no fetch raises. *)
Theorem main_sleeps_once_per_returning_fetch
  (career_stats headline_stats : cell -> result DataFrame)
  (page_at : string -> result (list node))
  (players_df : DataFrame) (t : trace) :
  In "id"%string (columns players_df) ->
  In "full_name"%string (columns players_df) ->
  sleeps (snd (main (Ok players_df) career_stats headline_stats page_at t))
    = sleeps t
        ++ loop_sleeps (fetch_player_stats career_stats) players_df "id"
        ++ loop_sleeps (fetch_player_awards headline_stats) players_df "id"
        ++ loop_sleeps (fetch_player_salaries page_at) players_df "full_name".
Proof.
  intros Hid Hname.
  pose proof (fetch_all_player_stats_run career_stats players_df Hid Hname
                (rows players_df) []) as Hs.
  pose proof (fetch_all_player_awards_run headline_stats players_df Hid Hname
                (rows players_df) []) as Ha.
  pose proof (fetch_all_player_salaries_run page_at players_df Hname
                (rows players_df) []) as Hp.
  rewrite <- (frame_eta players_df) in Hs, Ha, Hp.
  rewrite (main_run career_stats headline_stats page_at players_df Hid Hname
             _ _ _ (f_equal fst Hs) (f_equal fst Ha) (f_equal fst Hp) t).
  cbn zeta.
  assert (E : sleeps (trace_before_merge career_stats headline_stats page_at
                        players_df t)
              = sleeps t
                  ++ loop_sleeps (fetch_player_stats career_stats) players_df "id"
                  ++ loop_sleeps (fetch_player_awards headline_stats) players_df "id"
                  ++ loop_sleeps (fetch_player_salaries page_at) players_df "full_name").
  { unfold trace_before_merge. rewrite sleeps_app.
    rewrite (proj2 (proj2 (loops_sleep career_stats headline_stats page_at
                             players_df Hid Hname _))).
    rewrite sleeps_app.
    rewrite (proj1 (proj2 (loops_sleep career_stats headline_stats page_at
                             players_df Hid Hname _))).
    rewrite sleeps_app.
    rewrite (proj1 (loops_sleep career_stats headline_stats page_at
                      players_df Hid Hname _)).
    rewrite !sleeps_app. cbn [sleeps flat_map app].
    now rewrite !app_nil_r, <- !app_assoc. }
  destruct (merge_data _ _ _ _); cbn [snd]; [|exact E].
  rewrite sleeps_app, E. cbn [sleeps flat_map app]. now rewrite app_nil_r.
Qed.

Lemma main_sleeps_once_per_returning_fetch_witness :
  sleeps (snd (main (Ok Scenario.roster) Cases.career_stats_all
                 Scenario.headline_stats_full Cases.site_all []))
    = repeat 1%Z 6 /\
  sleeps (snd (main (Ok Scenario.roster) Scenario.career_stats_down
                 Scenario.headline_stats_down Scenario.page_at_only_ab []))
    = repeat 1%Z 3.
Proof.
  split.
  - exact (main_sleeps_once_per_returning_fetch Cases.career_stats_all
             Scenario.headline_stats_full Cases.site_all Scenario.roster []
             (or_introl eq_refl) (or_intror (or_introl eq_refl))).
  - exact (main_sleeps_once_per_returning_fetch Scenario.career_stats_down
             Scenario.headline_stats_down Scenario.page_at_only_ab Scenario.roster []
             (or_introl eq_refl) (or_intror (or_introl eq_refl))).
Defined.

(* ------------------------------------------------------------------ *)
(** * The table of a loop, cell by cell *)
(* ------------------------------------------------------------------ *)

Lemma index_of_absent (c : string) (cols : list string) :
  ~ In c cols -> index_of c cols = None.
Proof.
  induction cols as [|x t IH]; intros H; [reflexivity|].
  cbn [index_of]. destruct (String.eqb c x) eqn:E.
  - apply String.eqb_eq in E. subst. exfalso. apply H. now left.
  - rewrite IH; [reflexivity|]. intros Hin. apply H. now right.
Qed.

(** Under distinct labels, a row with one cell per label is the list of
    its cells under the labels. *)
Lemma map_row_get (cols : list string) :
  NoDup cols ->
  forall r, List.length r = List.length cols -> map (row_get cols r) cols = r.
Proof.
  induction cols as [|c t IH]; intros Hnd r Hlen.
  - destruct r; [reflexivity | discriminate Hlen].
  - destruct r as [|x r]; [discriminate Hlen|].
    inversion Hnd as [|? ? Hc Ht]; subst.
    cbn [map]. f_equal.
    + unfold row_get. cbn [index_of]. now rewrite String.eqb_refl.
    + rewrite <- (IH Ht r) at 2 by (cbn in Hlen; lia).
      apply map_ext_in. intros c' Hc'.
      unfold row_get. cbn [index_of].
      destruct (String.eqb c' c) eqn:E.
      * apply String.eqb_eq in E. subst. contradiction.
      * destruct (index_of c' t); reflexivity.
Qed.

(** The assignment of a column the table does not have puts the cell at
    the end of every row. *)
Lemma set_column_fresh (c : string) (v : cell) (df : DataFrame) :
  NoDup (columns df) -> ~ In c (columns df) -> aligned df ->
  set_column c v df
    = {| columns := columns df ++ [c]; rows := map (fun r => r ++ [v]) (rows df) |}.
Proof.
  intros Hnd Hc Ha. unfold set_column.
  replace (mem c (columns df)) with false by (symmetry; now apply mem_false).
  f_equal. apply map_ext_in. intros r Hr.
  rewrite map_app. cbn [map]. rewrite String.eqb_refl. f_equal.
  transitivity (map (row_get (columns df) r) (columns df));
    [|exact (map_row_get (columns df) Hnd r (Ha r Hr))].
  apply map_ext_in. intros c' Hc'.
  destruct (String.eqb c' c) eqn:E; [|reflexivity].
  apply String.eqb_eq in E. subst. contradiction.
Qed.

Lemma union_labels_fresh (ls : list string) :
  NoDup ls -> forall acc, (forall c, In c ls -> ~ In c acc) ->
  union_labels acc ls = acc ++ ls.
Proof.
  induction ls as [|c t IH]; intros Hnd acc Hacc; cbn [union_labels].
  - now rewrite app_nil_r.
  - inversion Hnd as [|? ? Hc Ht]; subst.
    replace (mem c acc) with false
      by (symmetry; apply mem_false; apply Hacc; now left).
    rewrite IH; [now rewrite <- app_assoc | exact Ht |].
    intros c' Hc' Hin. apply in_app_or in Hin as [Hin|[<-|[]]].
    + exact (Hacc c' (or_intror Hc') Hin).
    + contradiction.
Qed.

Lemma union_labels_same (ls acc : list string) :
  (forall c, In c ls -> In c acc) -> union_labels acc ls = acc.
Proof.
  revert acc. induction ls as [|c t IH]; intros acc H; cbn [union_labels]; [reflexivity|].
  replace (mem c acc) with true by (symmetry; apply mem_In; apply H; now left).
  apply IH. intros c' Hc'. apply H. now right.
Qed.

(** Tables that all have the same distinct labels are concatenated row
    after row under those labels. *)
Lemma collected_same_labels (labels : list string) (all : list DataFrame) :
  NoDup labels ->
  (forall f, In f all -> columns f = labels /\ aligned f) ->
  all <> [] ->
  collected all = {| columns := labels; rows := flat_map rows all |}.
Proof.
  intros Hnd Hall Hne. destruct all as [|f0 t]; [congruence|].
  assert (Hlabels : all_labels (f0 :: t) = labels).
  { unfold all_labels. cbn [fold_left].
    rewrite (proj1 (Hall f0 (or_introl eq_refl))).
    rewrite (union_labels_fresh labels Hnd []) by (intros c _ []).
    cbn [app].
    assert (G : forall l, (forall f, In f l -> columns f = labels) ->
                  fold_left (fun acc f => union_labels acc (columns f)) l labels = labels).
    { induction l as [|g l IH]; intros Hl; [reflexivity|].
      cbn [fold_left]. rewrite (Hl g (or_introl eq_refl)).
      rewrite union_labels_same by auto. apply IH. intros f Hf. apply Hl. now right. }
    apply G. intros f Hf. apply Hall. now right. }
  unfold collected. rewrite Hlabels. f_equal.
  generalize dependent (f0 :: t). intros all Hall _ _.
  induction all as [|f rest IH]; [reflexivity|].
  cbn [flat_map]. rewrite IH by (intros g Hg; apply Hall; now right). f_equal.
  destruct (Hall f (or_introl eq_refl)) as [Hc Ha].
  transitivity (map (fun r => r) (rows f)); [|apply map_id].
  apply map_ext_in. intros r Hr.
  unfold reindex. rewrite Hc. apply (map_row_get labels Hnd).
  rewrite <- Hc. now apply Ha.
Qed.

Section LoopExact.

Variables key_label tag_label : string.
Variable outcome : cell -> result DataFrame.
Variable cols : list string.
Variable labels : list string.

Hypothesis distinct : NoDup labels.
Hypothesis fresh : ~ In tag_label labels.

Let key (player : list cell) : cell := row_get cols player key_label.
Let gives := contribution key_label tag_label outcome cols.
Let tagged (player : list cell) : list (list cell) :=
  match outcome (key player) with
  | Ok df => if empty df then [] else map (fun r => r ++ [key player]) (rows df)
  | Raise _ => []
  end.

Lemma gives_exact (players : list (list cell)) :
  (forall player df,
     In player players -> outcome (key player) = Ok df -> empty df = false ->
     columns df = labels /\ aligned df) ->
  collected (flat_map gives players)
    = table_of_tagged labels tag_label (flat_map tagged players).
Proof.
  intros Huni.
  assert (Hnd : NoDup (labels ++ [tag_label])).
  { apply NoDup_app; [exact distinct | repeat constructor; intros [] | ].
    intros c Hc [<-|[]]. contradiction. }
  assert (Hgives : forall f, In f (flat_map gives players) ->
            columns f = labels ++ [tag_label] /\ aligned f /\ rows f <> []).
  { intros f Hf. apply in_flat_map in Hf as [p [Hp Hf]].
    unfold gives, contribution in Hf. fold (key p) in Hf.
    destruct (outcome (key p)) as [df|] eqn:E; [|destruct Hf].
    destruct (empty df) eqn:Ee; [destruct Hf|]. destruct Hf as [<-|[]].
    destruct (Huni p df Hp E Ee) as [Hc Ha].
    rewrite set_column_fresh by (rewrite ?Hc; assumption).
    cbn [columns rows]. rewrite Hc. repeat split.
    - intros r Hr. cbn [columns rows] in *.
      apply in_map_iff in Hr as [r0 [<- Hr0]].
      rewrite !length_app, (Ha r0 Hr0), Hc. reflexivity.
    - unfold empty in Ee. destruct (columns df); [discriminate Ee|].
      destruct (rows df); [discriminate Ee | discriminate]. }
  assert (Hrows : flat_map rows (flat_map gives players) = flat_map tagged players).
  { clear Hgives. induction players as [|p rest IH]; [reflexivity|].
    cbn [flat_map]. rewrite flat_map_app.
    rewrite IH by (intros q df Hq; apply Huni; now right). f_equal.
    unfold gives, contribution, tagged. fold (key p).
    destruct (outcome (key p)) as [df|] eqn:E; [|reflexivity].
    destruct (empty df) eqn:Ee; [reflexivity|].
    destruct (Huni p df (or_introl eq_refl) E Ee) as [Hc Ha].
    rewrite set_column_fresh by (rewrite ?Hc; assumption).
    cbn [flat_map rows]. now rewrite app_nil_r. }
  destruct (flat_map gives players) as [|f0 t] eqn:G.
  - rewrite <- Hrows. reflexivity.
  - rewrite (collected_same_labels (labels ++ [tag_label]) (f0 :: t) Hnd)
      by (try discriminate; intros f Hf; destruct (Hgives f Hf) as [? [? _]]; now split).
    rewrite Hrows. unfold table_of_tagged.
    destruct (flat_map tagged players) as [|r rs] eqn:T; [|reflexivity].
    exfalso. destruct (Hgives f0 (or_introl eq_refl)) as [_ [_ Hne]].
    cbn [flat_map] in Hrows. apply app_eq_nil in Hrows as [Hrows _]. contradiction.
Qed.

End LoopExact.

Lemma frame_of_records_shape (all : list SalaryRecord) :
  empty (frame_of_records all) = false ->
  columns (frame_of_records all) = ["season"; "salary"]%string /\
  aligned (frame_of_records all).
Proof.
  destruct all as [|r rest]; [discriminate|]. intros _. split; [reflexivity|].
  intros row Hrow. cbn [frame_of_records rows columns] in *.
  apply in_map_iff in Hrow as [r0 [<- _]]. reflexivity.
Qed.

Lemma salaries_outcome_shape (page_at : string -> result (list node))
  (k : cell) (df : DataFrame) :
  salaries_outcome page_at k = Ok df ->
  exists all, df = frame_of_records all.
Proof.
  unfold salaries_outcome, scrape.
  destruct (as_text k) as [name|]; [|discriminate].
  destruct (page_at _) as [soup|]; [|discriminate].
  destruct (find_label soup) as [following|]; [|discriminate].
  destruct (find_next_table following) as [table|].
  - destruct (find _ (descendants table)) as [tbody|]; [|discriminate].
    destruct (records _ []) as [all|]; [|discriminate].
    intros H. injection H as <-. now exists all.
  - intros H. injection H as <-. now exists [].
Qed.

(** X23.  For a roster with the columns [id] and [full_name]: when the
    tables the stats API returns for the players all have the same
    distinct column labels, [player_id] not among them, and rows of that
    many cells, the stats loop returns exactly the rows of those tables,
    in roster order, each followed by the id of its player, under those
    labels and [player_id]; and the table without columns when there
    is no such row.  The same holds of the awards loop. *)
Theorem api_loops_return_the_tagged_rows
  (career_stats headline_stats : cell -> result DataFrame)
  (players_df : DataFrame) (stats_labels awards_labels : list string) (t : trace) :
  In "id"%string (columns players_df) ->
  In "full_name"%string (columns players_df) ->
  (NoDup stats_labels -> ~ In "player_id"%string stats_labels ->
   uniform (fetch_player_stats career_stats) players_df "id" stats_labels ->
   fst (fetch_all_player_stats career_stats players_df t)
     = Ok (table_of_tagged stats_labels "player_id"
             (tagged_rows (fetch_player_stats career_stats) players_df "id"))) /\
  (NoDup awards_labels -> ~ In "player_id"%string awards_labels ->
   uniform (fetch_player_awards headline_stats) players_df "id" awards_labels ->
   fst (fetch_all_player_awards headline_stats players_df t)
     = Ok (table_of_tagged awards_labels "player_id"
             (tagged_rows (fetch_player_awards headline_stats) players_df "id"))).
Proof.
  intros Hid Hname.
  pose proof (fetch_all_player_stats_run career_stats players_df Hid Hname
                (rows players_df) t) as Hs.
  pose proof (fetch_all_player_awards_run headline_stats players_df Hid Hname
                (rows players_df) t) as Ha.
  rewrite <- (frame_eta players_df) in Hs, Ha.
  rewrite Hs, Ha. cbn [fst].
  split; intros Hnd Hfresh Huni; f_equal.
  - apply (gives_exact "id" "player_id" career_stats (columns players_df)
             stats_labels Hnd Hfresh (rows players_df)).
    intros player df Hin Hdf Hempty. exact (Huni player df Hin Hdf Hempty).
  - apply (gives_exact "id" "player_id" headline_stats (columns players_df)
             awards_labels Hnd Hfresh (rows players_df)).
    intros player df Hin Hdf Hempty. exact (Huni player df Hin Hdf Hempty).
Qed.

Lemma api_loops_return_the_tagged_rows_witness :
  fst (fetch_all_player_stats Cases.career_stats_all Scenario.roster [])
    = Ok {| columns := ["PLAYER_ID"; "SEASON_ID"; "PTS"; "player_id"]%string;
            rows := [[Some (VInt 1); Some (VStr "2021-22"); Some (VInt 900); Some (VInt 1)];
                     [Some (VInt 2); Some (VStr "2021-22"); Some (VInt 900); Some (VInt 2)]] |} /\
  fst (fetch_all_player_awards Scenario.headline_stats Scenario.roster [])
    = Ok empty_frame.
Proof.
  destruct (api_loops_return_the_tagged_rows Cases.career_stats_all
              Scenario.headline_stats Scenario.roster
              Scenario.stats_labels Scenario.awards_labels []
              (or_introl eq_refl) (or_intror (or_introl eq_refl))) as [Hs Ha].
  assert (Hnd : forall a b c : string, a <> b -> a <> c -> b <> c -> NoDup [a; b; c]).
  { intros a b c Hab Hac Hbc. repeat constructor.
    - intros [H|[H|[]]]; congruence.
    - intros [H|[]]; congruence.
    - intros []. }
  split.
  - apply Hs.
    + apply Hnd; discriminate.
    + intros [H|[H|[H|[]]]]; discriminate H.
    + intros player df [<-|[<-|[]]] Hdf _; injection Hdf as <-;
        (split; [reflexivity|]); intros r [<-|[]]; reflexivity.
  - apply Ha.
    + apply Hnd; discriminate.
    + intros [H|[H|[H|[]]]]; discriminate H.
    + intros player df [<-|[<-|[]]] Hdf Hempty; injection Hdf as <-;
        discriminate Hempty.
Defined.

(** X24.  For every roster with the column [full_name], the salary loop
    returns exactly the records scraped for the players, in roster order,
    as rows of season, salary and the name of the player, under the
    labels [season], [salary] and [full_name]; and the table without
    columns when there is no record at all. *)
Theorem salary_loop_returns_the_tagged_rows
  (page_at : string -> result (list node)) (players_df : DataFrame) (t : trace) :
  In "full_name"%string (columns players_df) ->
  fst (fetch_all_player_salaries page_at players_df t)
    = Ok (table_of_tagged ["season"; "salary"]%string "full_name"
            (tagged_rows (fetch_player_salaries page_at) players_df "full_name")).
Proof.
  intros Hname.
  pose proof (fetch_all_player_salaries_run page_at players_df Hname
                (rows players_df) t) as Hp.
  rewrite <- (frame_eta players_df) in Hp. rewrite Hp. cbn [fst]. f_equal.
  rewrite (gives_exact "full_name" "full_name" (salaries_outcome page_at)
             (columns players_df) ["season"; "salary"]%string).
  - f_equal. unfold tagged_rows. apply flat_map_ext. intros player.
    cbn zeta. now rewrite fetch_player_salaries_run.
  - repeat constructor.
    + intros [H|[]]. discriminate H.
    + intros [].
  - intros [H|[H|[]]]; discriminate H.
  - intros player df _ Hdf Hempty.
    destruct (salaries_outcome_shape page_at _ df Hdf) as [all ->].
    now apply frame_of_records_shape.
Qed.

Lemma salary_loop_returns_the_tagged_rows_witness :
  fst (fetch_all_player_salaries Cases.site_two_rows Scenario.roster [])
    = Ok {| columns := ["season"; "salary"; "full_name"]%string;
            rows := [[Some (VStr "2021-22"); Some (VStr "1234567"); Some (VStr "A B")];
                     [Some (VStr "2022-23"); Some (VStr "2345678"); Some (VStr "A B")];
                     [Some (VStr "2021-22"); Some (VStr "1234567"); Some (VStr "C D")];
                     [Some (VStr "2022-23"); Some (VStr "2345678"); Some (VStr "C D")]] |}.
Proof.
  exact (salary_loop_returns_the_tagged_rows Cases.site_two_rows Scenario.roster []
           (or_intror (or_introl eq_refl))).
Defined.
